(** * Christmas Sunday Finder: the year search, its statistics and its page

    A shallow embedding of [src/basic.js]: [findXmasSunday], the input
    guards of [findXmasSundays] and [ChristmasSundayFinder.calculateStatistics],
    together with the parts of the host language they rest on (the [Date]
    object, number division and [Number.prototype.toFixed]); then the rest
    of the script, the handlers that read and write the page, with
    [parseInt], the timers and [Math.random] of the host.

    Conventions.  A JavaScript number that holds an integer (a year, an
    array length, a difference of years) is a [Z]: the host computes [+],
    [-] and [++] on such numbers exactly while they stay below 2^53 in
    magnitude ([safeInteger]), which calendar years do.  Beyond it the
    model is not the program: the counter of a loop can stop moving there
    ([increment_sticks]), so statements about what the program returns or
    shows are made of safe integers.  Results of [/] and [*] are
    rationals rounded to binary64 ([JsNumber.binary64]).  A time value is
    [option Z], [None] standing for NaN. *)

From Stdlib Require Import ZArith List Bool String Ascii Lia Sorted.
From Stdlib Require Import QArith Qround Qabs Qpower Lqa.
From Stdlib Require Import DecimalString DecimalN DecimalPos.
Import ListNotations.

Local Open Scope Z_scope.

(* ================================================================== *)
(** ** The host's Date object (ECMA-262, "Date Objects") *)
(* ================================================================== *)

Module Date.

Definition msPerDay : Z := 86400000.
Definition msPerHour : Z := 3600000.
Definition msPerMinute : Z := 60000.
Definition msPerSecond : Z := 1000.

(** Day(t) = floor(t / msPerDay). *)
Definition Day (t : Z) : Z := t / msPerDay.

Definition TimeWithinDay (t : Z) : Z := t mod msPerDay.

Definition DaysInYear (y : Z) : Z :=
  if negb (y mod 4 =? 0) then 365
  else if negb (y mod 100 =? 0) then 366
  else if negb (y mod 400 =? 0) then 365
  else 366.

Definition DayFromYear (y : Z) : Z :=
  365 * (y - 1970) + (y - 1969) / 4 - (y - 1901) / 100 + (y - 1601) / 400.

Definition TimeFromYear (y : Z) : Z := msPerDay * DayFromYear y.

(** YearFromTime(t): the largest year [y] with [TimeFromYear y <= t].
    The mean Gregorian year has 146097/400 days, which gives an estimate
    that is off by at most one. *)
Definition YearFromTime (t : Z) : Z :=
  let d := Day t in
  let y := 1970 + (d * 400) / 146097 in
  if d <? DayFromYear y then y - 1
  else if DayFromYear (y + 1) <=? d then y + 1
  else y.

Definition InLeapYear (y : Z) : Z :=
  if DaysInYear y =? 366 then 1 else 0.

(** Day number, within its year, of the first day of month [mn] (0..11):
    the table behind MonthFromTime. *)
Definition DayOfMonthStart (mn leap : Z) : Z :=
  match mn with
  | 0 => 0
  | 1 => 31
  | 2 => 59 + leap
  | 3 => 90 + leap
  | 4 => 120 + leap
  | 5 => 151 + leap
  | 6 => 181 + leap
  | 7 => 212 + leap
  | 8 => 243 + leap
  | 9 => 273 + leap
  | 10 => 304 + leap
  | _ => 334 + leap
  end.

Definition MakeTime (hour min sec ms : Z) : Z :=
  hour * msPerHour + min * msPerMinute + sec * msPerSecond + ms.

(** MakeDay(year, month, date): the day number of the first of the month
    [ym]/[mn], plus [date - 1].  Years too far away for a time value give
    a day number that [TimeClip] rejects later. *)
Definition MakeDay (year month date : Z) : Z :=
  let ym := year + month / 12 in
  let mn := month mod 12 in
  DayFromYear ym + DayOfMonthStart mn (InLeapYear ym) + date - 1.

Definition MakeDate (day time : Z) : Z := day * msPerDay + time.

(** TimeClip: a time value lies within 8.64e15 ms of the epoch, else NaN. *)
Definition TimeClip (time : Z) : option Z :=
  if Z.abs time >? 8640000000000000 then None else Some time.

(** WeekDay(t): 0 is Sunday, ..., 6 is Saturday; the epoch was a Thursday. *)
Definition WeekDay (t : Z) : Z := (Day t + 4) mod 7.

(** The time zone of the host.  [LocalTZA t true] is the offset in force at
    the UTC instant [t]; [LocalTZA t false] the offset by which the local
    time [t] is read (the one before a transition, when [t] is skipped or
    repeated).  Offsets stay below one day, and no transition swallows
    the whole of a December 25: its local midnight, taken to UTC and
    back, is still on that day. *)
Record TimeZone : Type := {
  LocalTZA : Z -> bool -> Z;
  LocalTZA_bounded :
    forall t isUTC, - msPerDay < LocalTZA t isUTC < msPerDay;
  LocalTZA_xmas :
    forall y,
      let t := MakeDate (MakeDay y 11 25) 0 in
      let u := t - LocalTZA t false in
      Day (u + LocalTZA u true) = Day t
}.

Definition LocalTime (tz : TimeZone) (t : Z) : Z := t + LocalTZA tz t true.
Definition UTC (tz : TimeZone) (t : Z) : Z := t - LocalTZA tz t false.

(** A Date object: its [[DateValue]] slot. *)
Record t : Type := mkDate { DateValue : option Z }.

(** MakeFullYear: the years 0..99 mean 1900..1999. *)
Definition MakeFullYear (year : Z) : Z :=
  if (0 <=? year) && (year <=? 99) then 1900 + year else year.

(** [new Date(year, month, date)] *)
Definition new3 (tz : TimeZone) (year month date : Z) : t :=
  let yr := MakeFullYear year in
  let finalDate := MakeDate (MakeDay yr month date) (MakeTime 0 0 0 0) in
  mkDate (TimeClip (UTC tz finalDate)).

(** [new Date()]: the current time value of the host's clock. *)
Definition now (clock : Z) : t := mkDate (Some clock).

(** [getDay()] and [getFullYear()]: NaN for an invalid date. *)
Definition getDay (tz : TimeZone) (d : t) : option Z :=
  match DateValue d with
  | None => None
  | Some tv => Some (WeekDay (LocalTime tz tv))
  end.

Definition getFullYear (tz : TimeZone) (d : t) : option Z :=
  match DateValue d with
  | None => None
  | Some tv => Some (YearFromTime (LocalTime tz tv))
  end.

End Date.

(* ================================================================== *)
(** ** The host's numbers: division, multiplication and toFixed *)
(* ================================================================== *)

Module JsNumber.

Local Open Scope Q_scope.

(** A Number value.  Finite values are the rationals binary64 holds.  The
    sign of zero is not kept: [toFixed] prints both zeros alike, and the
    only zero divisor formed here, [endYear - startYear + 1], is +0. *)
Inductive number : Type :=
  | NaN
  | Infinity (negative : bool)
  | Finite (q : Q).

Definition ofZ (z : Z) : number := Finite (inject_Z z).

Definition Qlt_bool (x y : Q) : bool := negb (Qle_bool y x).

Definition pow2 (e : Z) : Q := Qpower 2 e.

(** floor(log2 x), for [x > 0]. *)
Definition ilog2 (x : Q) : Z :=
  let e := (Z.log2 (Qnum x) - Z.log2 (Zpos (Qden x)))%Z in
  if Qle_bool (pow2 e) x then e else (e - 1)%Z.

(** The nearest integer, a tie going to the even one. *)
Definition roundTiesToEven (x : Q) : Z :=
  let f := Qfloor x in
  match Qcompare (x - inject_Z f) (1 # 2) with
  | Lt => f
  | Gt => (f + 1)%Z
  | Eq => if Z.even f then f else (f + 1)%Z
  end.

(** Rounding to binary64: a significand of 53 bits, to the nearest, ties
    to even.  The exponent range is left open: the quotients and products
    formed here are ratios of integers below 2^53, far from overflow and
    from the subnormal numbers. *)
Definition binary64 (x : Q) : Q :=
  if Qeq_bool x 0 then 0
  else
    let e := (ilog2 (Qabs x) - 52)%Z in
    Qred (inject_Z (roundTiesToEven (x / pow2 e)) * pow2 e).

(** The relative error of that rounding is at most 2^-53. *)
Definition roundoff : Q := 1 # (2 ^ 53).

(** [a / b] *)
Definition div (a b : number) : number :=
  match a, b with
  | Finite x, Finite y =>
      if Qeq_bool y 0 then
        if Qeq_bool x 0 then NaN else Infinity (Qlt_bool x 0)
      else Finite (binary64 (x / y))
  | Finite _, Infinity _ => Finite 0
  | Infinity s, Finite y => Infinity (xorb s (Qlt_bool y 0))
  | _, _ => NaN
  end.

(** [a * b] *)
Definition mul (a b : number) : number :=
  match a, b with
  | Finite x, Finite y => Finite (binary64 (x * y))
  | Infinity s, Finite y | Finite y, Infinity s =>
      if Qeq_bool y 0 then NaN else Infinity (xorb s (Qlt_bool y 0))
  | Infinity s, Infinity s' => Infinity (xorb s s')
  | _, _ => NaN
  end.

(** [a + b] *)
Definition add (a b : number) : number :=
  match a, b with
  | Finite x, Finite y => Finite (binary64 (x + y))
  | Infinity s, Finite _ | Finite _, Infinity s => Infinity s
  | Infinity s, Infinity s' => if Bool.eqb s s' then Infinity s else NaN
  | _, _ => NaN
  end.

(** [Math.floor(a)] *)
Definition floor (a : number) : number :=
  match a with
  | Finite x => Finite (inject_Z (Qfloor x))
  | _ => a
  end.

(** The number an integer becomes: itself up to 53 bits, else rounded. *)
Definition ofInteger (m : Z) : Z := Qfloor (binary64 (inject_Z m)).

(** The decimal digits of a natural number. *)
Definition digits (n : Z) : string :=
  NilZero.string_of_uint (N.to_uint (Z.to_N n)).

(** The text of [n] tenths: all digits of [n] but the last, a point, the
    last digit; a minus sign in front for a negative number. *)
Definition fixed1 (negative : bool) (n : Z) : string :=
  ((if negative then "-" else "") ++
   digits (n / 10) ++ "." ++ digits (n mod 10))%string.

Section ToFixed.

(** Number::toString on a finite value of 10^21 or more, which [toFixed]
    falls back to; the host's shortest-digits printing is not modelled. *)
Variable NumberToString : Q -> string.

(** [x.toFixed(1)]: the integer [n] with [n / 10] nearest to [x], the
    larger one of two. *)
Definition toFixed1 (x : number) : string :=
  match x with
  | NaN => "NaN"%string
  | Infinity negative =>
      if negative then "-Infinity"%string else "Infinity"%string
  | Finite q =>
      let s := Qlt_bool q 0 in
      let x := Qabs q in
      if Qle_bool (inject_Z (10 ^ 21)) x then
        ((if s then "-" else "") ++ NumberToString x)%string
      else
        fixed1 s (Qfloor (x * 10 + (1 # 2)))
  end.

End ToFixed.

End JsNumber.

(* ================================================================== *)
(** ** The program: src/basic.js *)
(* ================================================================== *)

(** [xmasDate.getDay() === 0]: NaN is not 0. *)
Definition isZero (n : option Z) : bool :=
  match n with
  | Some 0 => true
  | _ => false
  end.

(** The [for] loop of [findXmasSunday], from [year] on.  [fuel] bounds the
    iterations left; [findXmasSunday] gives it the length of the range,
    and the loop then leaves through its own test ([loop_fuel]).
    [year + 1] is the program's [year++] for bounds that are safe
    integers ([increment_exact]); past 2^53 the program's counter stays
    where it is and the call does not return. *)
Fixpoint findXmasSunday_loop (tz : Date.TimeZone) (fuel : nat)
    (year endYear : Z) (sundayYears : list Z) : list Z :=
  match fuel with
  | O => sundayYears
  | S fuel' =>
      if year <=? endYear then
        let xmasDate := Date.new3 tz year 11 25 in
        let sundayYears' :=
          if isZero (Date.getDay tz xmasDate)
          then sundayYears ++ [year]
          else sundayYears in
        findXmasSunday_loop tz fuel' (year + 1) endYear sundayYears'
      else sundayYears
  end.

Definition findXmasSunday (tz : Date.TimeZone) (startYear endYear : Z)
    : list Z :=
  findXmasSunday_loop tz (Z.to_nat (endYear - startYear + 1))
    startYear endYear [].

(** What a run of [findXmasSundays] comes to: an [alert] and nothing
    else, or the deferred call [displayResults(years, startYear, endYear)]. *)
Inductive outcome : Type :=
  | Alert (message : string)
  | DisplayResults (years : list Z) (startYear endYear : Z).

Definition msgBoth : string := "Please enter both start and end years!".
Definition msgOrder : string :=
  "Start year must be less than or equal to end year!".
Definition msgBounds : string := "Please enter years between 1900 and 3000!".

(** [findXmasSundays], on the two numbers [parseInt] made of the input
    fields ([None] is NaN).  [!startYear] holds of NaN and of 0. *)
Definition findXmasSundays (tz : Date.TimeZone)
    (startYear endYear : option Z) : outcome :=
  match startYear, endYear with
  | Some startYear, Some endYear =>
      if (startYear =? 0) || (endYear =? 0) then Alert msgBoth
      else if startYear >? endYear then Alert msgOrder
      else if (startYear <? 1900) || (endYear >? 3000) then Alert msgBounds
      else DisplayResults (findXmasSunday tz startYear endYear)
             startYear endYear
  | _, _ => Alert msgBoth
  end.

(** An instance of [ChristmasSundayFinder]: its one field. *)
Record ChristmasSundayFinder : Type := mkFinder {
  currentYear : option Z
}.

(** The constructor reads the host's clock; the snow and the listeners it
    sets up touch the page only. *)
Definition newFinder (tz : Date.TimeZone) (clock : Z)
    : ChristmasSundayFinder :=
  mkFinder (Date.getFullYear tz (Date.now clock)).

(** [next] is a year or a text. *)
Inductive value : Type :=
  | Num (n : Z)
  | Str (s : string).

Record statistics : Type := mkStatistics {
  total : nat;
  frequency : string;
  next : value;
  gap : string
}.

(** [year >= this.currentYear]: false against NaN. *)
Definition geCurrent (this : ChristmasSundayFinder) (year : Z) : bool :=
  match currentYear this with
  | Some c => year >=? c
  | None => false
  end.

(** [years.find(...) || "None in range"]: [undefined] and 0 are falsy. *)
Definition nextSunday (this : ChristmasSundayFinder) (years : list Z)
    : value :=
  match find (geCurrent this) years with
  | Some year => if year =? 0 then Str "None in range" else Num year
  | None => Str "None in range"
  end.

(** The loop filling [gaps]: [years[i] - years[i - 1]] for [i] from 1.
    The differences, and their sum in [calculateStatistics], are the
    program's for years within [yearLike], where binary64 holds them all
    ([difference_exact]). *)
Definition gapsOf (years : list Z) : list Z :=
  map (fun i => nth i years 0 - nth (i - 1) years 0)
      (seq 1 (List.length years - 1)).

Section Statistics.

Variable NumberToString : Q -> string.

Definition calculateStatistics (this : ChristmasSundayFinder)
    (years : list Z) (startYear endYear : Z) : statistics :=
  let totalYears := endYear - startYear + 1 in
  let frequency :=
    JsNumber.toFixed1 NumberToString
      (JsNumber.mul
         (JsNumber.div (JsNumber.ofZ (Z.of_nat (List.length years)))
                       (JsNumber.ofZ totalYears))
         (JsNumber.ofZ 100)) in
  let nextSunday := nextSunday this years in
  let gaps := gapsOf years in
  let avgGap :=
    if (0 <? List.length gaps)%nat then
      JsNumber.toFixed1 NumberToString
        (JsNumber.div (JsNumber.ofZ (fold_left Z.add gaps 0))
                      (JsNumber.ofZ (Z.of_nat (List.length gaps))))
    else "-"%string in
  mkStatistics (List.length years) frequency nextSunday avgGap.

End Statistics.

(* ================================================================== *)
(** ** The weekday rule of the specification *)
(* ================================================================== *)

Module Gregorian.

(** Zeller's congruence for the Gregorian calendar: 0 is Saturday, 1 is
    Sunday, ..., 6 is Friday.  January and February count as months 13
    and 14 of the year before. *)
Definition zeller (year month day : Z) : Z :=
  let m := if month <=? 2 then month + 12 else month in
  let y := if month <=? 2 then year - 1 else year in
  let K := y mod 100 in
  let J := y / 100 in
  (day + 13 * (m + 1) / 5 + K + K / 4 + J / 4 + 5 * J) mod 7.

Definition isSunday (year month day : Z) : bool :=
  zeller year month day =? 1.

End Gregorian.

(** A host to evaluate the statistics on: its printing of the numbers
    from 10^21 on is left blank, no statistic here being that large. *)
Definition blankToString : Q -> string := fun _ => EmptyString.

(** The property the specification asks of a result list: within the
    range, a year is listed exactly when its December 25 is a Sunday. *)
Definition SoundComplete (years : list Z) (startYear endYear : Z) : Prop :=
  forall y, startYear <= y <= endYear ->
    (In y years <-> Gregorian.isSunday y 12 25 = true).

(** The statistics in the words of the specification, over the rationals:
    the consecutive differences, their mean, the share of the range in
    percent, and what it is to be rounded to one decimal place ([n]
    tenths lie nearest to [x]). *)
Fixpoint differences (years : list Z) : list Z :=
  match years with
  | a :: (b :: _) as rest => (b - a) :: differences rest
  | _ => []
  end.

Definition sumZ (l : list Z) : Z := fold_right Z.add 0 l.

Definition meanGap (years : list Z) : Q :=
  inject_Z (sumZ (differences years)) /
  inject_Z (Z.of_nat (List.length (differences years))).

Definition frequencyPercent (count : nat) (startYear endYear : Z) : Q :=
  inject_Z (Z.of_nat count) / inject_Z (endYear - startYear + 1)
  * inject_Z 100.

Definition nearestTenth (x : Q) (n : Z) : Prop :=
  (Qabs (inject_Z n / inject_Z 10 - x) <= 1 # 20)%Q.

(** Reading a text of tenths back: the sign, the digits before the point
    and the digit after it. *)
Definition readDigits (s : string) : option Z :=
  option_map (fun d => Z.of_N (N.of_uint d)) (NilZero.uint_of_string s).

Fixpoint splitPoint (s : string) : option (string * string) :=
  match s with
  | EmptyString => None
  | String c rest =>
      if Ascii.eqb c "." then Some (EmptyString, rest)
      else option_map (fun p => (String c (fst p), snd p)) (splitPoint rest)
  end.

Definition readTenths (negative : bool) (body : string)
    : option (bool * Z) :=
  match splitPoint body with
  | Some (whole, tenth) =>
      match readDigits whole, readDigits tenth with
      | Some w, Some t => Some (negative, w * 10 + t)
      | _, _ => None
      end
  | None => None
  end.

Definition readFixed1 (s : string) : option (bool * Z) :=
  match s with
  | String c rest =>
      if Ascii.eqb c "-" then readTenths true rest else readTenths false s
  | EmptyString => None
  end.

(** Years whose differences binary64 divides without leaving the nearest
    tenth: any calendar year, by a wide margin. *)
Definition yearLike (y : Z) : Prop := Z.abs y <= 2 ^ 47.

(** The integers binary64 counts through one by one
    ([Number.isSafeInteger]): on them [year++] is exact. *)
Definition safeInteger (n : Z) : Prop := Z.abs n < 2 ^ 53.

(** A range with an end outside the bounds 1900..3000 of the page. *)
Definition outOfBounds (startYear endYear : Z) : Prop :=
  startYear < 1900 \/ 3000 < startYear \/ endYear < 1900 \/ 3000 < endYear.

(** The years whose December 25 has a time value. *)
Definition representable (yr : Z) : bool :=
  (-271821 <=? yr) && (yr <=? 275759).

(** What the test in the loop of [findXmasSunday] comes to. *)
Definition xmasOnSunday (year : Z) : bool :=
  let yr := Date.MakeFullYear year in
  representable yr && Gregorian.isSunday yr 12 25.

(** The years [year], [year + 1], ... : [n] of them. *)
Fixpoint yearsFrom (year : Z) (n : nat) : list Z :=
  match n with
  | O => []
  | S n' => year :: yearsFrom (year + 1) n'
  end.

(* ================================================================== *)
(** ** The host's parseInt (ECMA-262, "parseInt (string, radix)") *)
(* ================================================================== *)

(** Strings are taken with code units below 256, which the [string] type
    holds one to a character. *)
Module ParseInt.

(** The white space and line terminators among those code units: TAB,
    LF, VT, FF, CR, the space and the no-break space. *)
Definition isWhiteSpace (c : ascii) : bool :=
  let n := nat_of_ascii c in
  ((9 <=? n)%nat && (n <=? 13)%nat) || (n =? 32)%nat || (n =? 160)%nat.

Fixpoint trimStart (s : string) : string :=
  match s with
  | String c rest => if isWhiteSpace c then trimStart rest else s
  | EmptyString => s
  end.

(** The value of a digit: 0..9, and 10..35 for the letters of either
    case. *)
Definition digitValue (c : ascii) : option Z :=
  let n := Z.of_nat (nat_of_ascii c) in
  if (48 <=? n) && (n <=? 57) then Some (n - 48)
  else if (65 <=? n) && (n <=? 90) then Some (n - 55)
  else if (97 <=? n) && (n <=? 122) then Some (n - 87)
  else None.

(** The values of the leading radix-[R] digits of [s]. *)
Fixpoint radixDigits (R : Z) (s : string) : list Z :=
  match s with
  | String c rest =>
      match digitValue c with
      | Some v => if v <? R then v :: radixDigits R rest else []
      | None => []
      end
  | EmptyString => []
  end.

Definition mathInt (R : Z) (ds : list Z) : Z :=
  fold_left (fun acc d => acc * R + d) ds 0.

(** [parseInt(s)], the radix left out: NaN is [None].  The sign of a
    zero result is not kept.  Past 20 digits the standard lets a host
    approximate; the exact value, rounded, is taken here.  The exponent
    range is left open as in [JsNumber.binary64]: a numeral past the
    largest binary64 number, Infinity to the host, is a large number
    here; the guards of the page let neither through. *)
Definition parseInt (s : string) : option Z :=
  let S := trimStart s in
  let sign :=
    match S with
    | String "-" _ => -1
    | _ => 1
    end in
  let S :=
    match S with
    | String "+" rest | String "-" rest => rest
    | _ => S
    end in
  let R :=
    match S with
    | String "0" (String "x" _) | String "0" (String "X" _) => 16
    | _ => 10
    end in
  let S :=
    match S with
    | String "0" (String "x" rest) | String "0" (String "X" rest) => rest
    | _ => S
    end in
  match radixDigits R S with
  | [] => None
  | Z => Some (JsNumber.ofInteger (sign * mathInt R Z))
  end.

End ParseInt.


(* ================================================================== *)
(** ** The rest of the program: the page and its handlers *)
(* ================================================================== *)

(** The two input fields: their values, border colours and placeholders. *)
Record fields : Type := mkFields {
  startYearValue : string;
  endYearValue : string;
  startYearBorder : string;
  endYearBorder : string;
  startYearPlaceholder : string;
  endYearPlaceholder : string
}.

(** The loading sign and the results section.  A year item is held by the
    year it was made for: its text is that number's and its click calls
    [showYearDetails] on it. *)
Record panel : Type := mkPanel {
  loadingDisplay : string;
  resultsSectionDisplay : string;
  resultsCount : string;
  yearsGrid : list Z;
  totalYears : string;
  frequencyText : string;
  nextSundayText : string;
  gapText : string
}.

(** A snowflake: its class, its sign, and the numbers its styles are made
    of (in per cent, seconds, seconds, pixels, and the opacity). *)
Record snowflake : Type := mkSnowflake {
  className : string;
  innerHTML : string;
  left : JsNumber.number;
  animationDuration : JsNumber.number;
  animationDelay : JsNumber.number;
  fontSize : JsNumber.number;
  opacity : JsNumber.number
}.

(** The page: the elements the script reaches, the listeners that
    [setupEventListeners] has put on each input field ([listeners] times
    an "input" and a "keypress" one), the calls of [Math.random] made so
    far, and the alerts raised, the oldest first. *)
Record page : Type := mkPage {
  inputs : fields;
  results : panel;
  snowContainer : list snowflake;
  listeners : nat;
  draws : nat;
  alerts : list string
}.

(** What [setTimeout] is given: the callback of [findXmasSundays], with
    the range it closes over, or the one that adds a year item. *)
Inductive task : Type :=
  | ShowResults (startYear endYear : Z)
  | AddYearItem (year : Z).

(** A timer: its delay in milliseconds and its callback. *)
Definition timer : Type := Z * task.

Definition withInputs (f : fields) (p : page) : page :=
  mkPage f (results p) (snowContainer p) (listeners p) (draws p) (alerts p).

Definition withResults (r : panel) (p : page) : page :=
  mkPage (inputs p) r (snowContainer p) (listeners p) (draws p) (alerts p).

(** [alert(message)] *)
Definition alert (message : string) (p : page) : page :=
  mkPage (inputs p) (results p) (snowContainer p) (listeners p) (draws p)
    (alerts p ++ [message]).

Definition withValues (startYear endYear : string) (f : fields) : fields :=
  mkFields startYear endYear (startYearBorder f) (endYearBorder f)
    (startYearPlaceholder f) (endYearPlaceholder f).

Definition withBorders (startYear endYear : string) (f : fields) : fields :=
  mkFields (startYearValue f) (endYearValue f) startYear endYear
    (startYearPlaceholder f) (endYearPlaceholder f).

Definition withPlaceholders (startYear endYear : string) (f : fields)
    : fields :=
  mkFields (startYearValue f) (endYearValue f)
    (startYearBorder f) (endYearBorder f) startYear endYear.

(** A number read as a condition: NaN and 0 are false. *)
Definition truthy (n : option Z) : bool :=
  match n with
  | None | Some 0 => false
  | Some _ => true
  end.

(** [a > b]: false against NaN. *)
Definition greater (a b : option Z) : bool :=
  match a, b with
  | Some a, Some b => a >? b
  | _, _ => false
  end.

(** [validateInputs]: the page it leaves and what it returns. *)
Definition validateInputs (p : page) : page * bool :=
  let startValue := ParseInt.parseInt (startYearValue (inputs p)) in
  let endValue := ParseInt.parseInt (endYearValue (inputs p)) in
  if truthy startValue && truthy endValue && greater startValue endValue
  then (withInputs (withBorders "red" "red" (inputs p)) p, false)
  else (withInputs (withBorders "var(--primary-green)"
                      "var(--primary-green)" (inputs p)) p, true).

(** The title's click listener, on the counter [clickCount]: the counter
    it leaves and the alert it raises, if any. *)
Definition titleClick (clickCount : Z) : Z * option string :=
  let clickCount := clickCount + 1 in
  if clickCount =? 5
  then (0, Some "🎅 Ho ho ho! Merry Christmas! 🎄"%string)
  else (clickCount, None).

Section Page.

Variable tz : Date.TimeZone.

(** Number::toString where it is not the plain decimal digits of an
    integer of at most 53 bits. *)
Variable NumberToString : Q -> string.

(** [toLocaleDateString("en-US", {year: "numeric", month: "long", day:
    "numeric"})], the host's. *)
Variable formatLongDate : Date.t -> string.

(** The values [Math.random()] returns, in the order of the calls. *)
Variable random : nat -> Q.

(** The text of a number that holds an integer. *)
Definition numberText (z : Z) : string :=
  let sign := if z <? 0 then "-"%string else EmptyString in
  if Z.abs z <=? 2 ^ 53
  then (sign ++ JsNumber.digits (Z.abs z))%string
  else NumberToString (inject_Z z).

(** The three signs of [initializeSnow]. *)
Definition snowflakes : list string :=
  ["❄"%string; "❅"%string; "❆"%string].

(** [snowflakes[n]] put into [innerHTML]: off the array it is
    [undefined], which shows as that word. *)
Definition snowflakeAt (n : JsNumber.number) : string :=
  match n with
  | JsNumber.Finite q =>
      if Qeq_bool q (inject_Z (Qfloor q)) && (0 <=? Qfloor q)
      then nth (Z.to_nat (Qfloor q)) snowflakes "undefined"%string
      else "undefined"%string
  | _ => "undefined"%string
  end.

(** One turn of the loop of [initializeSnow], after [k] calls of
    [Math.random]: six more calls, in the order of the statements. *)
Definition makeSnowflake (k : nat) : snowflake :=
  let r j := JsNumber.Finite (random (k + j)) in
  let lit q := JsNumber.Finite (JsNumber.binary64 q) in
  mkSnowflake "snowflake"
    (snowflakeAt
       (JsNumber.floor
          (JsNumber.mul (r 0%nat)
             (JsNumber.ofZ (Z.of_nat (List.length snowflakes))))))
    (JsNumber.mul (r 1%nat) (JsNumber.ofZ 100))
    (JsNumber.add (JsNumber.mul (r 2%nat) (JsNumber.ofZ 3)) (JsNumber.ofZ 2))
    (JsNumber.mul (r 3%nat) (JsNumber.ofZ 2))
    (JsNumber.add (JsNumber.mul (r 4%nat) (JsNumber.ofZ 10))
       (JsNumber.ofZ 10))
    (JsNumber.add (JsNumber.mul (r 5%nat) (lit (7 # 10))) (lit (3 # 10))).

(** [initializeSnow]: fifty snowflakes more in the container. *)
Definition initializeSnow (p : page) : page :=
  mkPage (inputs p) (results p)
    (snowContainer p
     ++ map (fun i => makeSnowflake (draws p + 6 * i)) (seq 0 50))
    (listeners p) (draws p + 6 * 50) (alerts p).

(** [setupEventListeners]: one "input" and one "keypress" listener more
    on each of the two fields. *)
Definition setupEventListeners (p : page) : page :=
  mkPage (inputs p) (results p) (snowContainer p) (S (listeners p))
    (draws p) (alerts p).

(** [new ChristmasSundayFinder()], the clock at [clock]. *)
Definition newChristmasSundayFinder (clock : Z) (p : page)
    : page * ChristmasSundayFinder :=
  let this := newFinder tz clock in
  let p := initializeSnow p in
  let p := setupEventListeners p in
  let p := fst (validateInputs p) in
  (p, this).

(** [findXmasSundays()] on the page: an alert, or the loading sign and a
    timer of 500 ms. *)
Definition findXmasSundaysPage (p : page) : page * list timer :=
  match findXmasSundays tz
          (ParseInt.parseInt (startYearValue (inputs p)))
          (ParseInt.parseInt (endYearValue (inputs p))) with
  | Alert message => (alert message p, [])
  | DisplayResults _ startYear endYear =>
      let r := results p in
      (withResults
         (mkPanel "block" "none" (resultsCount r) (yearsGrid r)
            (totalYears r) (frequencyText r) (nextSundayText r) (gapText r))
         p,
       [(500, ShowResults startYear endYear)])
  end.

(** The text of [stats.next]. *)
Definition valueText (v : value) : string :=
  match v with
  | Num n => numberText n
  | Str s => s
  end.

(** [displayResults(years, startYear, endYear)], the clock at [clock]:
    the page it leaves and the timers it sets, one a year. *)
Definition displayResults (clock : Z) (p : page) (years : list Z)
    (startYear endYear : Z) : page * list timer :=
  let r := results p in
  let p :=
    withResults
      (mkPanel (loadingDisplay r) (resultsSectionDisplay r)
         ("Found " ++ numberText (Z.of_nat (List.length years))
          ++ " years where Christmas falls on Sunday")%string
         []
         (totalYears r) (frequencyText r) (nextSundayText r) (gapText r))
      p in
  let timers :=
    map (fun iy => (Z.of_nat (fst iy) * 50, AddYearItem (snd iy)))
        (combine (seq 0 (List.length years)) years) in
  let (p, finder) := newChristmasSundayFinder clock p in
  let stats :=
    calculateStatistics NumberToString finder years startYear endYear in
  let r := results p in
  (withResults
     (mkPanel (loadingDisplay r) "block" (resultsCount r) (yearsGrid r)
        (numberText (Z.of_nat (total stats)))
        (frequency stats ++ "%")%string
        (valueText (next stats))
        (gap stats))
     p,
   timers).

(** A timer's callback, run with the clock at [clock]. *)
Definition runTask (clock : Z) (p : page) (t : task) : page * list timer :=
  match t with
  | ShowResults startYear endYear =>
      let years := findXmasSunday tz startYear endYear in
      let r := results p in
      let p :=
        withResults
          (mkPanel "none" (resultsSectionDisplay r) (resultsCount r)
             (yearsGrid r) (totalYears r) (frequencyText r)
             (nextSundayText r) (gapText r))
          p in
      displayResults clock p years startYear endYear
  | AddYearItem year =>
      let r := results p in
      (withResults
         (mkPanel (loadingDisplay r) (resultsSectionDisplay r)
            (resultsCount r) (yearsGrid r ++ [year])
            (totalYears r) (frequencyText r) (nextSundayText r) (gapText r))
         p,
       [])
  end.

(** The name [toLocaleDateString("en-US", {weekday: "long"})] gives. *)
Definition weekdayLong (d : Date.t) : string :=
  match Date.getDay tz d with
  | None => "Invalid Date"
  | Some 0 => "Sunday"
  | Some 1 => "Monday"
  | Some 2 => "Tuesday"
  | Some 3 => "Wednesday"
  | Some 4 => "Thursday"
  | Some 5 => "Friday"
  | Some _ => "Saturday"
  end.

Definition newline : string := String (ascii_of_nat 10) EmptyString.

(** [showYearDetails(year)]: its alert. *)
Definition showYearDetails (year : Z) (p : page) : page :=
  let date := Date.new3 tz year 11 25 in
  let dayName := weekdayLong date in
  let dateString := formatLongDate date in
  alert ("December 25th, " ++ numberText year ++ " falls on " ++ dayName
         ++ newline ++ newline ++ "Date: " ++ dateString)%string p.

(** [clearResults()] *)
Definition clearResults (p : page) : page :=
  let r := results p in
  let p :=
    withResults
      (mkPanel (loadingDisplay r) "none" (resultsCount r) (yearsGrid r)
         (totalYears r) (frequencyText r) (nextSundayText r) (gapText r))
      p in
  withInputs (withValues EmptyString EmptyString (inputs p)) p.

(** [loadExample()] *)
Definition loadExample (p : page) : page * list timer :=
  findXmasSundaysPage (withInputs (withValues "2000" "2100" (inputs p)) p).

(** A key pressed in one of the two fields: each "keypress" listener
    there runs, and calls [findXmasSundays] if the key is Enter. *)
Fixpoint callFindXmasSundays (n : nat) (p : page) : page * list timer :=
  match n with
  | O => (p, [])
  | S n' =>
      let (p, timers) := findXmasSundaysPage p in
      let (p, timers') := callFindXmasSundays n' p in
      (p, timers ++ timers')
  end.

Definition keypress (key : string) (p : page) : page * list timer :=
  if String.eqb key "Enter" then callFindXmasSundays (listeners p) p
  else (p, []).

(** An "input" event on one of the two fields: each such listener there
    calls [validateInputs]. *)
Definition inputEvent (p : page) : page :=
  Nat.iter (listeners p) (fun p => fst (validateInputs p)) p.

(** The listener of "DOMContentLoaded". *)
Definition domContentLoaded (clock : Z) (p : page) : page :=
  let p := fst (newChristmasSundayFinder clock p) in
  withInputs (withPlaceholders "2000" "2100" (inputs p)) p.

(** The timers that wait, each with the time it is due, the earliest
    first; those due together, in the order they were set. *)
Fixpoint insertTimer (t : timer) (queue : list timer) : list timer :=
  match queue with
  | [] => [t]
  | u :: rest =>
      if fst t <? fst u then t :: u :: rest else u :: insertTimer t rest
  end.

(** [setTimeout] for each of [timers], at the time [now]. *)
Definition schedule (now : Z) (timers queue : list timer) : list timer :=
  fold_left (fun q t => insertTimer (now + fst t, snd t) q) timers queue.

(** The event loop, left to the timers: the first that is due runs, at
    the time it is due, and sets its own.  A callback takes no time, and
    no click or key comes between.  [fuel] bounds the callbacks run. *)
Fixpoint runTimers (fuel : nat) (now : Z) (p : page) (queue : list timer)
    : page * list timer :=
  match fuel, queue with
  | S fuel', (due, t) :: rest =>
      let now := Z.max now due in
      let (p, timers) := runTask now p t in
      runTimers fuel' now p (schedule now timers rest)
  | _, _ => (p, queue)
  end.

End Page.

(** [n] clicks on the title, from the counter [clickCount]: the counter
    left and the number of alerts raised. *)
Fixpoint titleClicks (n : nat) (clickCount : Z) : Z * nat :=
  match n with
  | O => (clickCount, O)
  | S n' =>
      let (clickCount, message) := titleClick clickCount in
      let (clickCount, raised) := titleClicks n' clickCount in
      (clickCount,
       match message with Some _ => S raised | None => raised end)
  end.


(** The years on which the loop's test is Zeller's rule. *)
Definition plainYear (y : Z) : Prop :=
  (y < 0 \/ 99 < y) /\ -271821 <= y <= 275759.


(** December 25 of the year [y] is a Sunday, by Zeller's rule. *)
Definition sunday (y : Z) : bool := Gregorian.isSunday y 12 25.

(** After a Sunday Christmas the next four are not, and one of any
    eleven in a row is: checked on the years of one period. *)
Definition spacedAt (y : Z) : bool :=
  (negb (sunday y)
   || forallb (fun d => negb (sunday (y + d))) [1; 2; 3; 4])
  && existsb (fun d => sunday (y + d)) [0; 1; 2; 3; 4; 5; 6; 7; 8; 9; 10].


(** The values of the digits of a decimal numeral. *)
Fixpoint uintDigits (d : Decimal.uint) : list Z :=
  match d with
  | Decimal.Nil => []
  | Decimal.D0 d => 0 :: uintDigits d
  | Decimal.D1 d => 1 :: uintDigits d
  | Decimal.D2 d => 2 :: uintDigits d
  | Decimal.D3 d => 3 :: uintDigits d
  | Decimal.D4 d => 4 :: uintDigits d
  | Decimal.D5 d => 5 :: uintDigits d
  | Decimal.D6 d => 6 :: uintDigits d
  | Decimal.D7 d => 7 :: uintDigits d
  | Decimal.D8 d => 8 :: uintDigits d
  | Decimal.D9 d => 9 :: uintDigits d
  end.

(** A text of white space only. *)
Fixpoint blank (s : string) : bool :=
  match s with
  | String c rest => ParseInt.isWhiteSpace c && blank rest
  | EmptyString => true
  end.

(** A text that ends a numeral before it: empty, or begun by a
    character that is no digit and no letter. *)
Definition stops (s : string) : bool :=
  match s with
  | String c _ =>
      match ParseInt.digitValue c with
      | Some _ => false
      | None => true
      end
  | EmptyString => true
  end.


(** The page with year items more in the grid. *)
Definition withYearItems (years : list Z) (p : page) : page :=
  let r := results p in
  withResults
    (mkPanel (loadingDisplay r) (resultsSectionDisplay r) (resultsCount r)
       (yearsGrid r ++ years) (totalYears r) (frequencyText r)
       (nextSundayText r) (gapText r))
    p.

(** The timers [displayResults] sets for [years], the first of them with
    the index [k], as they wait when set at the time [now]. *)
Fixpoint yearTimers (now : Z) (k : nat) (years : list Z) : list timer :=
  match years with
  | [] => []
  | year :: rest =>
      (now + Z.of_nat k * 50, AddYearItem year) :: yearTimers now (S k) rest
  end.




Section SearchRun.

Variable tz : Date.TimeZone.
Variable NumberToString : Q -> string.
Variable random : nat -> Q.

(** A click on the search button at the time [now], and the timers it
    leads to, run to the end. *)
Definition search (fuel : nat) (now : Z) (p : page) : page * list timer :=
  let (p, timers) := findXmasSundaysPage tz p in
  runTimers tz NumberToString random fuel now p (schedule now timers []).

(** The panel a search of [startYear..endYear] that ends at the time
    [clock] leaves. *)
Definition searchPanel (clock : Z) (startYear endYear : Z) : panel :=
  let years := findXmasSunday tz startYear endYear in
  let stats :=
    calculateStatistics NumberToString (newFinder tz clock) years
      startYear endYear in
  mkPanel "none" "block"
    ("Found " ++ numberText NumberToString (Z.of_nat (List.length years))
     ++ " years where Christmas falls on Sunday")%string
    years
    (numberText NumberToString (Z.of_nat (total stats)))
    (frequency stats ++ "%")%string
    (valueText NumberToString (next stats))
    (gap stats).

End SearchRun.


(** A page to evaluate on: nothing in it yet, and the two years typed. *)
Definition emptyPage : page :=
  let e := EmptyString in
  mkPage (mkFields e e e e e e) (mkPanel e e e [] e e e e) [] 0 0 [].

Definition typed (startYear endYear : string) (p : page) : page :=
  withInputs (withValues startYear endYear (inputs p)) p.


(** A source of random numbers to evaluate on: 1/2 at every call. *)
Definition halves : nat -> Q := fun _ => (1 # 2)%Q.

(* ================================================================== *)
(** ** Facts about the Date object *)
(* ================================================================== *)

Module DateFacts.
Import Date.

(** A zone with one fixed offset, such as UTC itself. *)
Lemma fixed_zone_xmas (offset : Z) :
  forall y,
    let t := MakeDate (MakeDay y 11 25) 0 in
    let u := t - offset in
    Day (u + offset) = Day t.
Proof. intros y t u. unfold u. f_equal. lia. Qed.

Definition fixedZone (offset : Z)
  (H : - msPerDay < offset < msPerDay) : TimeZone :=
  {| LocalTZA := fun _ _ => offset;
     LocalTZA_bounded := fun _ _ => H;
     LocalTZA_xmas := fixed_zone_xmas offset |}.

Lemma utc_offset : - msPerDay < 0 < msPerDay.
Proof. unfold msPerDay. lia. Qed.

Lemma est_offset : - msPerDay < -18000000 < msPerDay.
Proof. unfold msPerDay. lia. Qed.

Definition utcZone : TimeZone := fixedZone 0 utc_offset.
Definition estZone : TimeZone := fixedZone (-18000000) est_offset.

(** A zone that changes its offset once, from [before] to [after] at the
    UTC instant [instant].  A local time that the change skips or repeats
    is read by the offset [before]. *)
Definition shiftOffset (instant before after : Z) (t : Z) (isUTC : bool)
    : Z :=
  if isUTC then (if t <? instant then before else after)
  else (if t <? instant + Z.max before after then before else after).

Lemma shift_zone_bounded (instant before after : Z) :
  - msPerDay < before < msPerDay ->
  - msPerDay < after < msPerDay ->
  forall t isUTC,
    - msPerDay < shiftOffset instant before after t isUTC < msPerDay.
Proof.
  intros Hb Ha t isUTC. unfold shiftOffset.
  destruct isUTC;
    [destruct (t <? instant)
    | destruct (t <? instant + Z.max before after)];
    assumption.
Qed.

Lemma shift_zone_xmas (instant before after : Z) :
  after - before < msPerDay ->
  forall y,
    let t := MakeDate (MakeDay y 11 25) 0 in
    let u := t - shiftOffset instant before after t false in
    Day (u + shiftOffset instant before after u true) = Day t.
Proof.
  intros Hgap y t u. unfold u, shiftOffset.
  destruct (Z.ltb_spec t (instant + Z.max before after)) as [H1 | H1].
  - destruct (Z.ltb_spec (t - before) instant) as [H2 | H2].
    + f_equal. lia.
    + unfold t, MakeDate, Day. rewrite Z.add_0_r.
      set (d := MakeDay y 11 25).
      assert (Ht : t = d * msPerDay) by (unfold t, MakeDate, d; lia).
      replace (d * msPerDay - before + after)
        with (d * msPerDay + (after - before)) by lia.
      rewrite Z.div_add_l by (unfold msPerDay; lia).
      rewrite Z.div_mul by (unfold msPerDay; lia).
      rewrite Z.div_small; lia.
  - destruct (Z.ltb_spec (t - after) instant) as [H2 | H2].
    + lia.
    + f_equal. lia.
Qed.

Definition shiftZone (instant before after : Z)
  (Hb : - msPerDay < before < msPerDay)
  (Ha : - msPerDay < after < msPerDay)
  (Hgap : after - before < msPerDay) : TimeZone :=
  {| LocalTZA := shiftOffset instant before after;
     LocalTZA_bounded := shift_zone_bounded instant before after Hb Ha;
     LocalTZA_xmas := shift_zone_xmas instant before after Hgap |}.

(** Clocks put forward by an hour at the local midnight of December 25,
    2022, which that day then lacks. *)
Lemma skip_before : - msPerDay < -18000000 < msPerDay.
Proof. unfold msPerDay. lia. Qed.

Lemma skip_after : - msPerDay < -14400000 < msPerDay.
Proof. unfold msPerDay. lia. Qed.

Lemma skip_gap : -14400000 - -18000000 < msPerDay.
Proof. unfold msPerDay. lia. Qed.

Definition skipZone : TimeZone :=
  shiftZone 1671944400000 (-18000000) (-14400000)
    skip_before skip_after skip_gap.

Example skipZone_xmas_2022 :
  new3 skipZone 2022 11 25 = mkDate (Some 1671944400000) /\
  LocalTime skipZone 1671944400000
  = MakeDate (MakeDay 2022 11 25) (MakeTime 1 0 0 0) /\
  getDay skipZone (new3 skipZone 2022 11 25) = Some 0.
Proof. repeat split. Qed.

Lemma xmas_weekday_zeller (yr : Z) :
  (MakeDay yr 11 25 + 4) mod 7 = (Gregorian.zeller yr 12 25 + 6) mod 7.
Proof.
  unfold MakeDay, Gregorian.zeller, InLeapYear, DaysInYear, DayFromYear.
  change (11 / 12) with 0. change (11 mod 12) with 11.
  cbn [DayOfMonthStart].
  change (12 <=? 2) with false. cbv iota.
  change (13 * (12 + 1) / 5) with 33.
  rewrite Z.add_0_r.
  destruct (Z.eqb_spec (yr mod 4) 0); cbn [negb];
  [destruct (Z.eqb_spec (yr mod 100) 0); cbn [negb];
  [destruct (Z.eqb_spec (yr mod 400) 0); cbn [negb]|]|];
  cbn [Z.eqb Pos.eqb];
  Z.div_mod_to_equations; lia.
Qed.

Ltac unfold_xmas_day :=
  unfold MakeDay, InLeapYear, DaysInYear, DayFromYear;
  change (11 / 12) with 0; change (11 mod 12) with 11;
  cbn [DayOfMonthStart]; rewrite ?Z.add_0_r;
  repeat match goal with
  | |- context [negb (?a =? ?b)] => destruct (Z.eqb_spec a b); cbn [negb]
  end;
  cbn [Z.eqb Pos.eqb].

Lemma xmas_day_inside (yr : Z) :
  -271821 <= yr <= 275759 ->
  -100000000 < MakeDay yr 11 25 < 100000000.
Proof. intros H. unfold_xmas_day; Z.div_mod_to_equations; lia. Qed.

Lemma xmas_day_late (yr : Z) :
  275760 <= yr -> 100000000 < MakeDay yr 11 25.
Proof. intros H. unfold_xmas_day; Z.div_mod_to_equations; lia. Qed.

Lemma xmas_day_early (yr : Z) :
  yr <= -271822 -> MakeDay yr 11 25 < -100000000.
Proof. intros H. unfold_xmas_day; Z.div_mod_to_equations; lia. Qed.

Lemma DayFromYear_step (y : Z) :
  DayFromYear (y + 1) = DayFromYear y + DaysInYear y.
Proof.
  unfold DayFromYear, DaysInYear.
  repeat match goal with
  | |- context [negb (?a =? ?b)] => destruct (Z.eqb_spec a b); cbn [negb]
  end; Z.div_mod_to_equations; lia.
Qed.

(** [YearFromTime t] is the year whose days hold [Day t]. *)
Lemma YearFromTime_spec (t : Z) :
  DayFromYear (YearFromTime t) <= Day t < DayFromYear (YearFromTime t + 1).
Proof.
  unfold YearFromTime.
  set (d := Day t). set (y := 1970 + d * 400 / 146097).
  assert (Hlo : DayFromYear (y - 1) <= d).
  { unfold DayFromYear, y. Z.div_mod_to_equations. lia. }
  assert (Hhi : d < DayFromYear (y + 2)).
  { unfold DayFromYear, y. Z.div_mod_to_equations. lia. }
  destruct (Z.ltb_spec d (DayFromYear y)) as [H1 | H1].
  - replace (y - 1 + 1) with y by lia. lia.
  - destruct (Z.leb_spec (DayFromYear (y + 1)) d) as [H2 | H2].
    + replace (y + 1 + 1) with (y + 2) by lia. lia.
    + lia.
Qed.

End DateFacts.

(* ================================================================== *)
(** ** The test of the loop: the weekday of December 25 *)
(* ================================================================== *)

Section XmasDate.

Import Date.
Variable tz : TimeZone.

Lemma Day_MakeDate (day : Z) : Day (MakeDate day 0) = day.
Proof.
  unfold Day, MakeDate. rewrite Z.add_0_r.
  apply Z.div_mul. unfold msPerDay. lia.
Qed.

(** [new Date(year, 11, 25).getDay()]: NaN when December 25 of the full
    year has no time value, and else its weekday by Zeller's rule, in the
    numbering that has Sunday at 0. *)
Lemma getDay_xmas (year : Z) :
  getDay tz (new3 tz year 11 25) =
  if representable (MakeFullYear year)
  then Some ((Gregorian.zeller (MakeFullYear year) 12 25 + 6) mod 7)
  else None.
Proof.
  unfold getDay, new3. cbn [DateValue].
  change (MakeTime 0 0 0 0) with 0.
  set (yr := MakeFullYear year).
  set (t := MakeDate (MakeDay yr 11 25) 0).
  pose proof (LocalTZA_bounded tz t false) as Hoff.
  pose proof (LocalTZA_xmas tz yr) as Hback. cbv zeta in Hback.
  fold t in Hback.
  unfold UTC, TimeClip, representable.
  assert (Ht : t = MakeDay yr 11 25 * msPerDay)
    by (unfold t, MakeDate; lia).
  destruct (Z.leb_spec (-271821) yr) as [Hlo | Hlo];
    [destruct (Z.leb_spec yr 275759) as [Hhi | Hhi] |]; cbn [andb].
  - pose proof (DateFacts.xmas_day_inside yr) as Hin.
    destruct (Z.gtb_spec (Z.abs (t - LocalTZA tz t false)) 8640000000000000)
      as [Hbig | Hok].
    + exfalso. unfold msPerDay in *. lia.
    + unfold WeekDay, LocalTime. rewrite Hback. unfold t.
      rewrite Day_MakeDate. now rewrite DateFacts.xmas_weekday_zeller.
  - pose proof (DateFacts.xmas_day_late yr) as Hlate.
    destruct (Z.gtb_spec (Z.abs (t - LocalTZA tz t false)) 8640000000000000)
      as [Hbig | Hok]; [reflexivity |].
    exfalso. unfold msPerDay in *. lia.
  - pose proof (DateFacts.xmas_day_early yr) as Hearly.
    destruct (Z.gtb_spec (Z.abs (t - LocalTZA tz t false)) 8640000000000000)
      as [Hbig | Hok]; [reflexivity |].
    exfalso. unfold msPerDay in *. lia.
Qed.

Lemma isZero_getDay_xmas (year : Z) :
  isZero (getDay tz (new3 tz year 11 25)) = xmasOnSunday year.
Proof.
  rewrite getDay_xmas. unfold xmasOnSunday, Gregorian.isSunday.
  destruct (representable (MakeFullYear year)); cbn [andb isZero];
    [| reflexivity].
  set (h := Gregorian.zeller (MakeFullYear year) 12 25).
  assert (Hh : 0 <= h < 7)
    by (apply Z.mod_pos_bound; lia).
  destruct (Z.eqb_spec h 1) as [-> | Hne]; [reflexivity |].
  assert (Hnz : (h + 6) mod 7 <> 0) by (Z.div_mod_to_equations; lia).
  destruct ((h + 6) mod 7); congruence.
Qed.

End XmasDate.

(* ================================================================== *)
(** ** The loop of findXmasSunday *)
(* ================================================================== *)

Section Loop.

Variable tz : Date.TimeZone.

(** With fuel for the years left, the loop appends the Sunday years among
    them, in order. *)
Lemma loop_filter (fuel : nat) :
  forall year endYear acc,
    (Z.to_nat (endYear - year + 1) <= fuel)%nat ->
    findXmasSunday_loop tz fuel year endYear acc =
    acc ++ filter xmasOnSunday
             (yearsFrom year (Z.to_nat (endYear - year + 1))).
Proof.
  induction fuel as [| fuel IH]; intros year endYear acc Hfuel.
  - assert (Hn : Z.to_nat (endYear - year + 1) = O) by lia.
    rewrite Hn. cbn. now rewrite app_nil_r.
  - cbn [findXmasSunday_loop].
    destruct (Z.leb_spec year endYear) as [Hle | Hgt].
    + replace (Z.to_nat (endYear - year + 1))
        with (S (Z.to_nat (endYear - (year + 1) + 1))) by lia.
      cbn [yearsFrom filter].
      rewrite IH by lia.
      rewrite isZero_getDay_xmas.
      destruct (xmasOnSunday year); [| reflexivity].
      now rewrite <- app_assoc.
    + assert (Hn : Z.to_nat (endYear - year + 1) = O) by lia.
      rewrite Hn. cbn. now rewrite app_nil_r.
Qed.

(** More fuel than the range is long changes nothing: the loop ends by
    its test [year <= endYear]. *)
Lemma loop_fuel (fuel : nat) (year endYear : Z) (acc : list Z) :
  (Z.to_nat (endYear - year + 1) <= fuel)%nat ->
  findXmasSunday_loop tz fuel year endYear acc =
  findXmasSunday_loop tz (Z.to_nat (endYear - year + 1)) year endYear acc.
Proof.
  intros H. rewrite (loop_filter fuel) by exact H.
  now rewrite (loop_filter (Z.to_nat (endYear - year + 1))) by lia.
Qed.

Lemma findXmasSunday_filter (startYear endYear : Z) :
  findXmasSunday tz startYear endYear =
  filter xmasOnSunday
    (yearsFrom startYear (Z.to_nat (endYear - startYear + 1))).
Proof. unfold findXmasSunday. now rewrite loop_filter by lia. Qed.

End Loop.

Lemma In_yearsFrom (n : nat) :
  forall year y, In y (yearsFrom year n) <-> year <= y < year + Z.of_nat n.
Proof.
  induction n as [| n IH]; intros year y; cbn [yearsFrom In].
  - lia.
  - rewrite IH. lia.
Qed.

Lemma In_findXmasSunday (tz : Date.TimeZone) (startYear endYear y : Z) :
  In y (findXmasSunday tz startYear endYear) <->
  startYear <= y <= endYear /\ xmasOnSunday y = true.
Proof.
  rewrite findXmasSunday_filter, filter_In, In_yearsFrom.
  split; intros [H1 H2]; (split; [lia | exact H2]).
Qed.

Lemma yearsFrom_sorted (n : nat) :
  forall year, StronglySorted Z.lt (yearsFrom year n).
Proof.
  induction n as [| n IH]; intros year; cbn [yearsFrom]; constructor.
  - apply IH.
  - apply Forall_forall. intros y Hy. apply In_yearsFrom in Hy. lia.
Qed.

Lemma filter_sorted (p : Z -> bool) (l : list Z) :
  StronglySorted Z.lt l -> StronglySorted Z.lt (filter p l).
Proof.
  induction 1 as [| a l Hl IH Ha]; cbn [filter]; [constructor |].
  destruct (p a); [| exact IH].
  constructor; [exact IH |].
  apply Forall_forall. intros y Hy. apply filter_In in Hy.
  rewrite Forall_forall in Ha. now apply Ha.
Qed.

Lemma sorted_NoDup (l : list Z) : StronglySorted Z.lt l -> NoDup l.
Proof.
  induction 1 as [| a l Hl IH Ha]; constructor; [| exact IH].
  intros Hin. rewrite Forall_forall in Ha. specialize (Ha a Hin). lia.
Qed.

(* ================================================================== *)
(** ** The year search: what findXmasSunday returns *)
(* ================================================================== *)

Lemma MakeFullYear_far (year : Z) :
  year < 0 \/ 99 < year -> Date.MakeFullYear year = year.
Proof.
  intros H. unfold Date.MakeFullYear.
  destruct (Z.leb_spec 0 year); destruct (Z.leb_spec year 99);
    cbn [andb]; lia.
Qed.

Lemma MakeFullYear_two_digits (year : Z) :
  0 <= year <= 99 -> Date.MakeFullYear year = 1900 + year.
Proof.
  intros H. unfold Date.MakeFullYear.
  destruct (Z.leb_spec 0 year); destruct (Z.leb_spec year 99);
    cbn [andb]; lia.
Qed.

(** C1, as the specification has it, fails on two kinds of year.  The
    call [findXmasSunday(4, 5)] returns [4], whose December 25 was a
    Saturday, and leaves out 5, whose December 25 was a Sunday: the Date
    constructor reads the years 0..99 as 1900..1999.  The year 275763 has
    its December 25 on a Sunday, past the last time value a Date holds,
    and [findXmasSunday(275763, 275763)] is empty. *)
Lemma findXmasSunday_not_sound_complete :
  findXmasSunday DateFacts.utcZone 4 5 = [4] /\
  Gregorian.isSunday 4 12 25 = false /\
  Gregorian.isSunday 5 12 25 = true /\
  ~ SoundComplete (findXmasSunday DateFacts.utcZone 4 5) 4 5 /\
  findXmasSunday DateFacts.utcZone 275763 275763 = [] /\
  Gregorian.isSunday 275763 12 25 = true /\
  ~ SoundComplete (findXmasSunday DateFacts.utcZone 275763 275763)
      275763 275763.
Proof.
  assert (H45 : findXmasSunday DateFacts.utcZone 4 5 = [4])
    by (rewrite findXmasSunday_filter; vm_compute; reflexivity).
  assert (Hfar : findXmasSunday DateFacts.utcZone 275763 275763 = [])
    by (rewrite findXmasSunday_filter; vm_compute; reflexivity).
  split; [exact H45 |].
  split; [vm_compute; reflexivity |].
  split; [vm_compute; reflexivity |].
  split; [| split; [exact Hfar | split; [vm_compute; reflexivity |]]].
  - intros H. specialize (H 4 ltac:(lia)). rewrite H45 in H.
    destruct H as [H _]. specialize (H (or_introl eq_refl)).
    vm_compute in H. discriminate.
  - intros H. specialize (H 275763 ltac:(lia)). rewrite Hfar in H.
    destruct H as [_ H]. apply H. vm_compute. reflexivity.
Qed.

(** C1, amended: for bounds that are safe integers, where the loop
    counts through the range and returns, a year of the range that is not
    one of 0..99 and whose December 25 has a time value (the years
    -271821 to 275759) is returned exactly when its December 25 is a
    Sunday by Zeller's rule; in whatever time zone the host is. *)
Theorem findXmasSunday_sound_complete
    (tz : Date.TimeZone) (startYear endYear y : Z) :
  safeInteger startYear -> safeInteger endYear ->
  startYear <= y <= endYear ->
  y < 0 \/ 99 < y ->
  -271821 <= y <= 275759 ->
  (In y (findXmasSunday tz startYear endYear) <->
   Gregorian.isSunday y 12 25 = true).
Proof.
  intros _ _ Hy Hfar Hrange.
  rewrite In_findXmasSunday. unfold xmasOnSunday.
  rewrite MakeFullYear_far by lia.
  assert (Hrep : representable y = true).
  { unfold representable.
    destruct (Z.leb_spec (-271821) y); destruct (Z.leb_spec y 275759);
      cbn [andb]; lia. }
  rewrite Hrep. cbn [andb]. tauto.
Qed.

Lemma findXmasSunday_sound_complete_witness :
  safeInteger 2000 /\ safeInteger 2025 /\
  2000 <= 2022 <= 2025 /\ (2022 < 0 \/ 99 < 2022) /\
  -271821 <= 2022 <= 275759 /\
  (In 2022 (findXmasSunday DateFacts.skipZone 2000 2025) <->
   Gregorian.isSunday 2022 12 25 = true).
Proof.
  split; [reflexivity | split; [reflexivity |]].
  split; [lia | split; [lia | split; [lia |]]].
  apply (findXmasSunday_sound_complete DateFacts.skipZone 2000 2025 2022);
    try lia; reflexivity.
Defined.

(** C2: every year [findXmasSunday(start, end)] returns lies between
    [start] and [end], and the list is strictly ascending, so without
    duplicates.  (This holds for bounds in either order.) *)
Theorem findXmasSunday_within_ascending
    (tz : Date.TimeZone) (startYear endYear : Z) :
  Forall (fun y => startYear <= y <= endYear)
         (findXmasSunday tz startYear endYear) /\
  StronglySorted Z.lt (findXmasSunday tz startYear endYear) /\
  NoDup (findXmasSunday tz startYear endYear).
Proof.
  assert (Hs : StronglySorted Z.lt (findXmasSunday tz startYear endYear)).
  { rewrite findXmasSunday_filter.
    apply filter_sorted, yearsFrom_sorted. }
  split; [| split].
  - apply Forall_forall. intros y Hy.
    now apply In_findXmasSunday in Hy.
  - exact Hs.
  - now apply sorted_NoDup.
Qed.

(** C3: [findXmasSunday(2000, 2025)] is the list 2005, 2011, 2016, 2022,
    in any time zone. *)
Theorem findXmasSunday_2000_2025 (tz : Date.TimeZone) :
  findXmasSunday tz 2000 2025 = [2005; 2011; 2016; 2022].
Proof. rewrite findXmasSunday_filter. vm_compute. reflexivity. Qed.

(** Nineteen centuries shift the weekday of a date by one or two days. *)
Lemma zeller_shift_1900 (y : Z) :
  Gregorian.zeller (y + 1900) 12 25 <> Gregorian.zeller y 12 25.
Proof.
  unfold Gregorian.zeller. change (12 <=? 2) with false. cbv iota.
  change (13 * (12 + 1) / 5) with 33.
  Z.div_mod_to_equations; lia.
Qed.

(** C10: for bounds within 0..99, [new Date(y, 11, 25).getDay()] is the
    weekday of December 25 of the year [y + 1900], and [y] is returned
    exactly when that day of the year [y + 1900] is a Sunday; December 25
    of the year [y] itself is then another day of the week. *)
Theorem findXmasSunday_two_digit_years
    (tz : Date.TimeZone) (startYear endYear : Z) :
  0 <= startYear -> endYear <= 99 ->
  (forall y, startYear <= y <= endYear ->
     Date.getDay tz (Date.new3 tz y 11 25) =
     Some ((Gregorian.zeller (y + 1900) 12 25 + 6) mod 7)) /\
  (forall y, In y (findXmasSunday tz startYear endYear) <->
     startYear <= y <= endYear /\
     Gregorian.isSunday (y + 1900) 12 25 = true) /\
  (forall y, In y (findXmasSunday tz startYear endYear) ->
     Gregorian.isSunday y 12 25 = false).
Proof.
  intros Hlo Hhi.
  assert (Hrep : forall y, 0 <= y <= 99 -> representable (1900 + y) = true).
  { intros y Hy. unfold representable.
    destruct (Z.leb_spec (-271821) (1900 + y));
      destruct (Z.leb_spec (1900 + y) 275759); cbn [andb]; lia. }
  assert (Hin : forall y, In y (findXmasSunday tz startYear endYear) <->
     startYear <= y <= endYear /\
     Gregorian.isSunday (y + 1900) 12 25 = true).
  { intros y. rewrite In_findXmasSunday. unfold xmasOnSunday.
    split; intros [Hy H]; (split; [exact Hy |]).
    - rewrite MakeFullYear_two_digits, Hrep in H by lia.
      now rewrite (Z.add_comm y 1900).
    - rewrite MakeFullYear_two_digits, Hrep by lia.
      now rewrite (Z.add_comm 1900 y). }
  split; [| split; [exact Hin |]].
  - intros y Hy. rewrite getDay_xmas.
    rewrite MakeFullYear_two_digits by lia.
    rewrite Hrep by lia. now rewrite (Z.add_comm 1900 y).
  - intros y Hy. apply Hin in Hy. destruct Hy as [_ Hsun].
    unfold Gregorian.isSunday in *.
    pose proof (zeller_shift_1900 y) as Hshift.
    apply Z.eqb_eq in Hsun. apply Z.eqb_neq. congruence.
Qed.

Lemma findXmasSunday_two_digit_years_witness :
  0 <= 0 /\ 99 <= 99 /\
  (forall y, 0 <= y <= 99 ->
     Date.getDay DateFacts.estZone (Date.new3 DateFacts.estZone y 11 25) =
     Some ((Gregorian.zeller (y + 1900) 12 25 + 6) mod 7)) /\
  (forall y, In y (findXmasSunday DateFacts.estZone 0 99) <->
     0 <= y <= 99 /\ Gregorian.isSunday (y + 1900) 12 25 = true) /\
  (forall y, In y (findXmasSunday DateFacts.estZone 0 99) ->
     Gregorian.isSunday y 12 25 = false).
Proof.
  split; [lia | split; [lia |]].
  apply (findXmasSunday_two_digit_years DateFacts.estZone 0 99); lia.
Defined.

(* ================================================================== *)
(** ** The guards of findXmasSundays *)
(* ================================================================== *)

(** C4, as the specification has it, fails: [findXmasSunday(2000, 1999)]
    returns the empty list like any other call; the function has no check
    of its bounds and no error to raise. *)
Lemma findXmasSunday_accepts_reversed_range :
  findXmasSunday DateFacts.utcZone 2000 1999 = [].
Proof. reflexivity. Qed.

(** C4, amended: with [start > end], [findXmasSunday] returns the empty
    list, its loop never entered.  The order of the bounds is checked by
    the page's handler [findXmasSundays]: it ends in an alert and displays
    nothing, and when neither number is 0 the alert is the one about the
    order of the years. *)
Theorem reversed_range (tz : Date.TimeZone) (startYear endYear : Z) :
  endYear < startYear ->
  findXmasSunday tz startYear endYear = [] /\
  (exists message,
     findXmasSundays tz (Some startYear) (Some endYear) = Alert message) /\
  (startYear <> 0 -> endYear <> 0 ->
   findXmasSundays tz (Some startYear) (Some endYear) = Alert msgOrder).
Proof.
  intros Hrev. split; [| split].
  - unfold findXmasSunday.
    replace (Z.to_nat (endYear - startYear + 1)) with O by lia.
    reflexivity.
  - unfold findXmasSundays.
    destruct ((startYear =? 0) || (endYear =? 0)); [now eexists |].
    destruct (Z.gtb_spec startYear endYear); [now eexists | lia].
  - intros Hs He. unfold findXmasSundays.
    destruct (Z.eqb_spec startYear 0); [contradiction |].
    destruct (Z.eqb_spec endYear 0); [contradiction |]. cbn [orb].
    destruct (Z.gtb_spec startYear endYear); [reflexivity | lia].
Qed.

Lemma reversed_range_witness :
  1999 < 2000 /\
  findXmasSunday DateFacts.utcZone 2000 1999 = [] /\
  (exists message,
     findXmasSundays DateFacts.utcZone (Some 2000) (Some 1999)
     = Alert message) /\
  (2000 <> 0 -> 1999 <> 0 ->
   findXmasSundays DateFacts.utcZone (Some 2000) (Some 1999)
   = Alert msgOrder).
Proof.
  split; [lia |].
  apply (reversed_range DateFacts.utcZone 2000 1999). lia.
Defined.

(** C5: a range with an end outside 1900..3000 ends in an alert, and
    nothing is computed or displayed for it.  For [start <= end],
    [findXmasSundays] alerts of exactly these ranges and displays every
    other; the alert is the one of the guard
    [startYear < 1900 || endYear > 3000], and that one is raised of
    exactly these ranges, unless a bound is 0, which the first guard takes
    for a missing entry.  A range that is displayed is the range that was
    entered, between 1900 and 3000. *)
Theorem findXmasSundays_bounds
    (tz : Date.TimeZone) (startYear endYear : Z) :
  (outOfBounds startYear endYear ->
   exists message,
     findXmasSundays tz (Some startYear) (Some endYear) = Alert message) /\
  (startYear <= endYear ->
   ((exists message,
       findXmasSundays tz (Some startYear) (Some endYear) = Alert message)
    <-> outOfBounds startYear endYear)) /\
  (startYear <= endYear -> startYear <> 0 -> endYear <> 0 ->
   (findXmasSundays tz (Some startYear) (Some endYear) = Alert msgBounds
    <-> outOfBounds startYear endYear)) /\
  (forall years startYear' endYear',
     findXmasSundays tz (Some startYear) (Some endYear)
     = DisplayResults years startYear' endYear' ->
     years = findXmasSunday tz startYear endYear /\
     startYear' = startYear /\ endYear' = endYear /\
     1900 <= startYear /\ startYear <= endYear /\ endYear <= 3000).
Proof.
  unfold outOfBounds, findXmasSundays.
  destruct (Z.eqb_spec startYear 0) as [Hs | Hs];
    destruct (Z.eqb_spec endYear 0) as [He | He]; cbn [orb];
    destruct (Z.gtb_spec startYear endYear) as [Hgt | Hle];
    destruct (Z.ltb_spec startYear 1900) as [Hlo | Hlo];
    destruct (Z.gtb_spec endYear 3000) as [Hhi | Hhi]; cbn [orb];
    (split; [intros H; try (now eexists); lia |]);
    (split;
     [intros H; split;
      [intros [message H']; try discriminate H'; lia
      | intros H'; try (now eexists); lia]
     |]);
    (split;
     [intros H1 H2 H3; split;
      [intros H'; try discriminate H'; lia
      | intros H'; try reflexivity; lia]
     |]);
    intros years s' e' H; try discriminate H;
    injection H as <- <- <-; repeat split; lia.
Qed.

Lemma findXmasSundays_bounds_witness :
  outOfBounds 1800 2000 /\ 1800 <= 2000 /\ 1800 <> 0 /\ 2000 <> 0 /\
  (exists message,
     findXmasSundays DateFacts.utcZone (Some 1800) (Some 2000)
     = Alert message) /\
  findXmasSundays DateFacts.utcZone (Some 1800) (Some 2000)
  = Alert msgBounds.
Proof.
  assert (Hout : outOfBounds 1800 2000) by (unfold outOfBounds; lia).
  pose proof (findXmasSundays_bounds DateFacts.utcZone 1800 2000)
    as [H1 [_ [H3 _]]].
  split; [exact Hout |].
  split; [lia | split; [lia | split; [lia |]]].
  split; [exact (H1 Hout) |].
  apply H3; [lia | lia | lia | exact Hout].
Defined.

(* ================================================================== *)
(** ** Facts about binary64 rounding and toFixed *)
(* ================================================================== *)

Module NumberFacts.
Import JsNumber.
Local Open Scope Q_scope.

Lemma pow2_pos (e : Z) : 0 < pow2 e.
Proof. apply Qpower_0_lt. reflexivity. Qed.

Lemma pow2_add (a b : Z) : pow2 (a + b) == pow2 a * pow2 b.
Proof. apply Qpower_plus. discriminate. Qed.

Lemma pow2_inject (n : Z) : (0 <= n)%Z -> pow2 n == inject_Z (2 ^ n).
Proof. intros H. unfold pow2. now rewrite Zpower_Qpower. Qed.

(** The bit lengths of numerator and denominator place [x] within a
    factor of two. *)
Lemma ilog2_estimate (x : Q) :
  0 < x ->
  let e := (Z.log2 (Qnum x) - Z.log2 (Z.pos (Qden x)))%Z in
  pow2 (e - 1) <= x /\ x < pow2 (e + 1).
Proof.
  intros Hx. cbv zeta.
  set (p := Qnum x). set (q := Z.pos (Qden x)).
  assert (Hp : (0 < p)%Z).
  { unfold p. destruct x as [n d]. unfold Qlt in Hx. cbn in *. lia. }
  assert (Hq : (0 < q)%Z) by (unfold q; lia).
  destruct (Z.log2_spec p Hp) as [Hp1 Hp2].
  destruct (Z.log2_spec q Hq) as [Hq1 Hq2].
  set (a := Z.log2 p) in *. set (b := Z.log2 q) in *.
  assert (Ha : (0 <= a)%Z) by apply Z.log2_nonneg.
  assert (Hb : (0 <= b)%Z) by apply Z.log2_nonneg.
  replace (Z.succ a) with (a + 1)%Z in Hp2 by lia.
  replace (Z.succ b) with (b + 1)%Z in Hq2 by lia.
  rewrite Zle_Qle in Hp1, Hq1. rewrite Zlt_Qlt in Hp2, Hq2.
  rewrite <- pow2_inject in Hp1, Hp2, Hq1, Hq2 by lia.
  assert (Hx' : x == inject_Z p / inject_Z q).
  { unfold p, q. destruct x as [n d]. cbn [Qnum Qden]. apply Qmake_Qdiv. }
  assert (Hq' : 0 < inject_Z q) by (unfold Qlt; cbn; lia).
  rewrite Hx'. split.
  - apply Qle_shift_div_l; [exact Hq' |].
    apply Qle_trans with (pow2 (a - b - 1) * pow2 (b + 1)).
    + apply Qmult_le_l; [apply pow2_pos | now apply Qlt_le_weak].
    + rewrite <- pow2_add.
      now replace (a - b - 1 + (b + 1))%Z with a by lia.
  - apply Qlt_shift_div_r; [exact Hq' |].
    apply Qlt_le_trans with (pow2 (a - b + 1) * pow2 b).
    + rewrite <- pow2_add.
      now replace (a - b + 1 + b)%Z with (a + 1)%Z by lia.
    + apply Qmult_le_l; [apply pow2_pos | exact Hq1].
Qed.

(** [ilog2 x] is the exponent of the power of two at or below [x]. *)
Lemma ilog2_le (x : Q) : 0 < x -> pow2 (ilog2 x) <= x.
Proof.
  intros Hx. destruct (ilog2_estimate x Hx) as [Hlo _]. unfold ilog2.
  set (e := (Z.log2 (Qnum x) - Z.log2 (Z.pos (Qden x)))%Z) in *.
  destruct (Qle_bool (pow2 e) x) eqn:Hb; [| exact Hlo].
  now apply Qle_bool_iff.
Qed.

Lemma ilog2_lt (x : Q) : 0 < x -> x < pow2 (ilog2 x + 1).
Proof.
  intros Hx. destruct (ilog2_estimate x Hx) as [_ Hhi]. unfold ilog2.
  set (e := (Z.log2 (Qnum x) - Z.log2 (Z.pos (Qden x)))%Z) in *.
  destruct (Qle_bool (pow2 e) x) eqn:Hb; [exact Hhi |].
  replace (e - 1 + 1)%Z with e by lia.
  destruct (Qlt_le_dec x (pow2 e)) as [H | H]; [exact H |].
  apply Qle_bool_iff in H. congruence.
Qed.

Lemma rne_error (x : Q) :
  Qabs (inject_Z (roundTiesToEven x) - x) <= 1 # 2.
Proof.
  unfold roundTiesToEven.
  pose proof (Qfloor_le x) as Hlo. pose proof (Qlt_floor x) as Hhi.
  rewrite inject_Z_plus in Hhi. change (inject_Z 1) with 1 in Hhi.
  set (f := Qfloor x) in *.
  apply Qabs_Qle_condition.
  destruct (Qcompare_spec (x - inject_Z f) (1 # 2)) as [He | Hl | Hg].
  - destruct (Z.even f); rewrite ?inject_Z_plus;
      change (inject_Z 1) with 1; lra.
  - lra.
  - rewrite inject_Z_plus. change (inject_Z 1) with 1. lra.
Qed.

Lemma binary64_error (x : Q) :
  Qabs (binary64 x - x) <= Qabs x * roundoff.
Proof.
  unfold binary64.
  destruct (Qeq_bool x 0) eqn:Hz.
  - apply Qeq_bool_eq in Hz. rewrite Hz. cbn. discriminate.
  - apply Qeq_bool_neq in Hz.
    assert (Hax : 0 < Qabs x).
    { destruct (Qlt_le_dec 0 (Qabs x)) as [H | H]; [exact H |].
      exfalso. apply Hz. pose proof (Qabs_nonneg x).
      assert (E : Qabs x == 0) by lra.
      apply Qabs_Qle_condition in H. lra. }
    pose proof (ilog2_le (Qabs x) Hax) as Hlog.
    set (il := ilog2 (Qabs x)) in *.
    set (P := pow2 (il - 52)).
    assert (HP : 0 < P) by apply pow2_pos.
    assert (EP : pow2 il == P * inject_Z (2 ^ 52)).
    { unfold P. rewrite <- (pow2_inject 52) by lia. rewrite <- pow2_add.
      now replace (il - 52 + 52)%Z with il by lia. }
    rewrite EP in Hlog.
    pose proof (rne_error (x / P)) as Hr.
    set (m := inject_Z (roundTiesToEven (x / P))) in *.
    rewrite Qred_correct.
    apply Qabs_Qle_condition in Hr. destruct Hr as [Hr1 Hr2].
    assert (Exy : x == (x / P) * P) by (field; lra).
    set (y := x / P) in *.
    assert (H1 : (m - y) * P <= (1 # 2) * P)
      by (apply Qmult_le_compat_r; lra).
    assert (H2 : (- (1 # 2)) * P <= (m - y) * P)
      by (apply Qmult_le_compat_r; lra).
    apply Qabs_Qle_condition.
    unfold roundoff.
    change (inject_Z (2 ^ 52)) with (4503599627370496 # 1) in Hlog.
    change (1 # 2 ^ 53) with (1 # 9007199254740992).
    split; lra.
Qed.

Lemma rne_integer (z : Z) : roundTiesToEven (inject_Z z) = z.
Proof.
  unfold roundTiesToEven. rewrite Qfloor_Z.
  destruct (Qcompare_spec (inject_Z z - inject_Z z) (1 # 2)) as [H | H | H];
    [exfalso; lra | reflexivity | exfalso; lra].
Qed.

Lemma pow2_mono (a b : Z) : (a <= b)%Z -> pow2 a <= pow2 b.
Proof.
  intros H. replace b with (a + (b - a))%Z by lia. rewrite pow2_add.
  assert (1 <= pow2 (b - a)).
  { rewrite pow2_inject by lia. change 1 with (inject_Z 1). rewrite <- Zle_Qle.
    assert (0 < 2 ^ (b - a))%Z by (apply Z.pow_pos_nonneg; lia). lia. }
  pose proof (pow2_pos a).
  assert (0 <= pow2 a * (pow2 (b - a) - 1)) by (apply Qmult_le_0_compat; lra).
  lra.
Qed.

(** The significand of a rounded number has at most 53 bits. *)
Lemma binary64_significand (x : Q) :
  exists m e : Z,
    binary64 x == inject_Z m * pow2 e /\ (Z.abs m <= 2 ^ 53)%Z.
Proof.
  unfold binary64. destruct (Qeq_bool x 0) eqn:Hz.
  - exists 0%Z, 0%Z. split; [reflexivity | lia].
  - apply Qeq_bool_neq in Hz.
    assert (Hax : 0 < Qabs x).
    { destruct (Qlt_le_dec 0 (Qabs x)) as [H | H]; [exact H |].
      exfalso. apply Hz. apply Qabs_Qle_condition in H. lra. }
    pose proof (ilog2_lt (Qabs x) Hax) as Hlt.
    set (il := ilog2 (Qabs x)) in *. set (P := pow2 (il - 52)).
    assert (HP : 0 < P) by apply pow2_pos.
    exists (roundTiesToEven (x / P)), (il - 52)%Z. fold P.
    split; [apply Qred_correct |].
    assert (EP : pow2 (il + 1) == P * inject_Z (2 ^ 53)).
    { unfold P. rewrite <- (pow2_inject 53) by lia. rewrite <- pow2_add.
      now replace (il - 52 + 53)%Z with (il + 1)%Z by lia. }
    rewrite EP in Hlt.
    assert (Hy : Qabs (x / P) <= inject_Z (2 ^ 53)).
    { unfold Qdiv. rewrite Qabs_Qmult, Qabs_Qinv, (Qabs_pos P) by lra.
      apply Qle_shift_div_r; [exact HP |]. lra. }
    apply Qabs_Qle_condition in Hy. destruct Hy as [Hy1 Hy2].
    set (y := x / P) in *.
    assert (Hm : - inject_Z (2 ^ 53) <= inject_Z (roundTiesToEven y)
                 <= inject_Z (2 ^ 53)).
    { unfold roundTiesToEven.
      pose proof (Qfloor_le y) as Hlo. pose proof (Qlt_floor y) as Hhi.
      set (f := Qfloor y) in *.
      assert (Hf1 : (- 2 ^ 53 <= f)%Z).
      { replace (- 2 ^ 53)%Z with (Qfloor (- inject_Z (2 ^ 53))).
        - now apply Qfloor_resp_le.
        - rewrite <- inject_Z_opp. apply Qfloor_Z. }
      assert (Hf2 : (f <= 2 ^ 53)%Z).
      { replace (2 ^ 53)%Z with (Qfloor (inject_Z (2 ^ 53))) by apply Qfloor_Z.
        now apply Qfloor_resp_le. }
      destruct (Qcompare_spec (y - inject_Z f) (1 # 2)) as [He | Hl | Hg].
      + destruct (Z.even f) eqn:Hev.
        * rewrite <- inject_Z_opp, <- !Zle_Qle. lia.
        * assert (f <> 2 ^ 53)%Z by (intros ->; discriminate Hev).
          rewrite <- inject_Z_opp, <- !Zle_Qle. lia.
      + rewrite <- inject_Z_opp, <- !Zle_Qle. lia.
      + assert (f <> 2 ^ 53)%Z by (intros ->; lra).
        rewrite <- inject_Z_opp, <- !Zle_Qle. lia. }
    rewrite <- inject_Z_opp, <- !Zle_Qle in Hm. lia.
Qed.

Lemma Qabs_inject_Z (z : Z) : Qabs (inject_Z z) = inject_Z (Z.abs z).
Proof. reflexivity. Qed.

Lemma rne_comp (x y : Q) :
  x == y -> roundTiesToEven x = roundTiesToEven y.
Proof.
  intros H. unfold roundTiesToEven. rewrite (Qfloor_comp x y H).
  assert (E : Qcompare (x - inject_Z (Qfloor y)) (1 # 2)
              = Qcompare (y - inject_Z (Qfloor y)) (1 # 2)).
  { apply Qcompare_comp; [now rewrite H | reflexivity]. }
  now rewrite E.
Qed.

(** Integers of at most 53 bits are binary64 numbers: rounding keeps
    them.  This is what lets a year or a length be a [Z]. *)
Lemma binary64_integer (z : Z) :
  (Z.abs z <= 2 ^ 53)%Z -> binary64 (inject_Z z) == inject_Z z.
Proof.
  intros Hz. unfold binary64.
  destruct (Qeq_bool (inject_Z z) 0) eqn:E0.
  - apply Qeq_bool_eq in E0. now rewrite E0.
  - apply Qeq_bool_neq in E0.
    assert (Hnz : z <> 0%Z) by (intros ->; now apply E0).
    rewrite Qabs_inject_Z. rewrite Qred_correct.
    assert (Hax : 0 < inject_Z (Z.abs z)) by (unfold Qlt; cbn; lia).
    pose proof (ilog2_le _ Hax) as Hle.
    set (il := ilog2 (inject_Z (Z.abs z))) in *.
    assert (Hil : (il <= 53)%Z).
    { destruct (Z_le_gt_dec il 53) as [H | H]; [exact H | exfalso].
      pose proof (pow2_mono 54 il ltac:(lia)) as Hm.
      rewrite (pow2_inject 54) in Hm by lia.
      assert (Hc : inject_Z (2 ^ 54) <= inject_Z (Z.abs z)) by lra.
      rewrite <- Zle_Qle in Hc. change (2 ^ 54)%Z with (2 * 2 ^ 53)%Z in Hc.
      lia. }
    set (P := pow2 (il - 52)).
    assert (HP : 0 < P) by apply pow2_pos.
    assert (Hint : exists k : Z, inject_Z z / P == inject_Z k).
    { destruct (Z_le_gt_dec il 52) as [H | H].
      - exists (z * 2 ^ (52 - il))%Z.
        rewrite inject_Z_mult, <- (pow2_inject (52 - il)) by lia.
        assert (EP : P * pow2 (52 - il) == 1).
        { unfold P. rewrite <- pow2_add.
          now replace (il - 52 + (52 - il))%Z with 0%Z by lia. }
        pose proof (pow2_pos (52 - il)).
        apply Qmult_inj_r with P; [lra |].
        setoid_replace (inject_Z z / P * P) with (inject_Z z) by (field; lra).
        rewrite <- Qmult_assoc, (Qmult_comm (pow2 (52 - il))), EP. ring.
      - assert (Eil : il = 53%Z) by lia.
        assert (EP : P == 2) by (unfold P; rewrite Eil; reflexivity).
        rewrite Eil in Hle. change (pow2 53) with (inject_Z (2 ^ 53)) in Hle.
        rewrite <- Zle_Qle in Hle.
        assert (Hz2 : Z.abs z = (2 ^ 53)%Z) by lia.
        exists (z / 2)%Z. rewrite EP.
        assert (Ez : z = (2 * (z / 2))%Z).
        { change (2 ^ 53)%Z with 9007199254740992%Z in Hz2.
          Z.div_mod_to_equations. lia. }
        rewrite Ez at 1. rewrite inject_Z_mult. change (inject_Z 2) with 2.
        field. }
    destruct Hint as [k Hk].
    assert (Er : roundTiesToEven (inject_Z z / P) = k).
    { rewrite (rne_comp _ _ Hk). apply rne_integer. }
    rewrite Er, <- Hk. field. lra.
Qed.

Lemma Qabs_bounds (x : Q) : - Qabs x <= x <= Qabs x.
Proof. apply Qabs_Qle_condition. apply Qle_refl. Qed.

Lemma inject_Z_pos_ge_1 (z : Z) : 0 < inject_Z z -> 1 <= inject_Z z.
Proof. unfold Qlt, Qle. cbn. lia. Qed.

(** The integer nearest to [D], the larger of two, is also nearest to a
    fraction [A / k] that [D] misses by less than [1 / (2 k)]: between
    the fractions of denominator [2 k] there is no room for a switch. *)
Lemma floor_half_nearest (A k : Z) (X D : Q) :
  (1 <= k)%Z ->
  X * inject_Z k == inject_Z A ->
  Qabs (D - X) * inject_Z (2 * k) < 1 ->
  Qabs (inject_Z (Qfloor (D + (1 # 2))) - X) <= 1 # 2.
Proof.
  intros Hk HX Herr.
  pose proof (Qfloor_le (D + (1 # 2))) as Hlo.
  pose proof (Qlt_floor (D + (1 # 2))) as Hhi.
  set (n := Qfloor (D + (1 # 2))) in *.
  rewrite inject_Z_plus in Hhi. change (inject_Z 1) with 1 in Hhi.
  rewrite inject_Z_mult in Herr. change (inject_Z 2) with 2 in Herr.
  assert (HK : 1 <= inject_Z k) by (unfold Qle; cbn; lia).
  pose proof (Qabs_bounds (D - X)) as [Ha1 Ha2].
  set (a := Qabs (D - X)) in *.
  assert (Eup : inject_Z (2 * k * n - 2 * A - k)
                == (inject_Z n - X - (1 # 2)) * (2 * inject_Z k)).
  { unfold Zminus. rewrite !inject_Z_plus, !inject_Z_opp, !inject_Z_mult.
    rewrite <- HX. change (inject_Z 2) with 2. ring. }
  assert (Edn : inject_Z (2 * A - k - 2 * k * n)
                == (X - (1 # 2) - inject_Z n) * (2 * inject_Z k)).
  { unfold Zminus. rewrite !inject_Z_plus, !inject_Z_opp, !inject_Z_mult.
    rewrite <- HX. change (inject_Z 2) with 2. ring. }
  set (K := inject_Z k) in *. set (N := inject_Z n) in *.
  apply Qabs_Qle_condition. split.
  - destruct (Qlt_le_dec N (X - (1 # 2))) as [Hbad | Hok]; [exfalso | lra].
    assert (Hpos : 0 < inject_Z (2 * A - k - 2 * k * n)).
    { rewrite Edn. apply Qmult_lt_0_compat; lra. }
    apply inject_Z_pos_ge_1 in Hpos. rewrite Edn in Hpos.
    assert (Hlt : (X - (1 # 2) - N) * (2 * K) < a * (2 * K)).
    { apply Qmult_lt_compat_r; lra. }
    lra.
  - destruct (Qlt_le_dec (X + (1 # 2)) N) as [Hbad | Hok]; [exfalso | lra].
    assert (Hpos : 0 < inject_Z (2 * k * n - 2 * A - k)).
    { rewrite Eup. apply Qmult_lt_0_compat; lra. }
    apply inject_Z_pos_ge_1 in Hpos. rewrite Eup in Hpos.
    assert (Hle : (N - X - (1 # 2)) * (2 * K) <= a * (2 * K)).
    { apply Qmult_le_compat_r; lra. }
    lra.
Qed.

Lemma binary64_nonneg (x : Q) :
  0 <= x ->
  x * (1 - roundoff) <= binary64 x /\ binary64 x <= x * (1 + roundoff).
Proof.
  intros Hx. pose proof (binary64_error x) as H.
  rewrite (Qabs_pos x Hx) in H. apply Qabs_Qle_condition in H.
  unfold roundoff in *. lra.
Qed.

Lemma binary64_nonpos (x : Q) :
  x <= 0 ->
  x * (1 + roundoff) <= binary64 x /\ binary64 x <= x * (1 - roundoff).
Proof.
  intros Hx. pose proof (binary64_error x) as H.
  rewrite (Qabs_neg x Hx) in H. apply Qabs_Qle_condition in H.
  unfold roundoff in *. lra.
Qed.

Lemma div_ofZ (a b : Z) :
  b <> 0%Z ->
  div (ofZ a) (ofZ b) = Finite (binary64 (inject_Z a / inject_Z b)).
Proof.
  intros Hb. unfold div, ofZ.
  destruct (Qeq_bool (inject_Z b) 0) eqn:E; [| reflexivity].
  apply Qeq_bool_eq in E. exfalso. apply Hb.
  now apply (inject_Z_injective b 0).
Qed.

Section Fixed.

Variable NumberToString : Q -> string.

Lemma toFixed1_nonneg (q : Q) :
  0 <= q -> q < inject_Z (10 ^ 21) ->
  toFixed1 NumberToString (Finite q)
  = fixed1 false (Qfloor (q * 10 + (1 # 2))).
Proof.
  intros H0 H1. unfold toFixed1, Qlt_bool.
  assert (E0 : Qle_bool 0 q = true) by now apply Qle_bool_iff.
  rewrite E0. cbn [negb].
  destruct (Qle_bool (inject_Z (10 ^ 21)) (Qabs q)) eqn:E.
  - apply Qle_bool_iff in E. rewrite (Qabs_pos q H0) in E. lra.
  - f_equal. apply Qfloor_comp. now rewrite (Qabs_pos q H0).
Qed.

Lemma toFixed1_neg (q : Q) :
  q < 0 -> - inject_Z (10 ^ 21) < q ->
  toFixed1 NumberToString (Finite q)
  = fixed1 true (Qfloor (- q * 10 + (1 # 2))).
Proof.
  intros H0 H1. unfold toFixed1, Qlt_bool.
  assert (E0 : Qle_bool 0 q = false).
  { destruct (Qle_bool 0 q) eqn:E; [| reflexivity].
    apply Qle_bool_iff in E. lra. }
  rewrite E0. cbn [negb].
  assert (Ea : Qabs q == - q) by (apply Qabs_neg; lra).
  destruct (Qle_bool (inject_Z (10 ^ 21)) (Qabs q)) eqn:E.
  - apply Qle_bool_iff in E. rewrite Ea in E. lra.
  - f_equal. apply Qfloor_comp. now rewrite Ea.
Qed.

End Fixed.

Lemma Qdiv_le_num (C T : Q) : 0 <= C -> 1 <= T -> 0 <= C / T /\ C / T <= C.
Proof.
  intros HC HT. split.
  - apply Qle_shift_div_l; lra.
  - apply Qle_shift_div_r; [lra |].
    assert (0 <= C * (T - 1)) by (apply Qmult_le_0_compat; lra). lra.
Qed.

Lemma tenths_scale (N x : Q) :
  Qabs (N - x * 10) <= 1 # 2 -> Qabs (N / 10 - x) <= 1 # 20.
Proof.
  intros H. apply Qabs_Qle_condition in H. apply Qabs_Qle_condition.
  split; apply Qle_minus_iff.
  - setoid_replace (N / 10 - x + - - (1 # 20))
      with ((N - x * 10 + (1 # 2)) / 10) by field.
    apply Qle_shift_div_l; lra.
  - setoid_replace ((1 # 20) + - (N / 10 - x))
      with (((1 # 2) - (N - x * 10)) / 10) by field.
    apply Qle_shift_div_l; lra.
Qed.

Section Quotient.

Variable NumberToString : Q -> string.

(** The quotient of an integer [S] of at most 48 bits by [k >= 1],
    printed by [toFixed(1)]: a nearest tenth of [S / k]. *)
Lemma toFixed1_quotient (S k : Z) :
  (Z.abs S <= 2 ^ 48)%Z -> (1 <= k)%Z ->
  exists (negative : bool) (n : Z),
    toFixed1 NumberToString (div (ofZ S) (ofZ k)) = fixed1 negative n /\
    (0 <= n)%Z /\
    nearestTenth (inject_Z S / inject_Z k) (if negative then (- n)%Z else n).
Proof.
  intros HS Hk. rewrite div_ofZ by lia.
  set (x := inject_Z S / inject_Z k). set (d := binary64 x).
  assert (HK : 1 <= inject_Z k) by (unfold Qle; cbn; lia).
  assert (ExK : x * inject_Z k == inject_Z S) by (unfold x; field; lra).
  change (2 ^ 48)%Z with 281474976710656%Z in HS.
  destruct (Z_le_gt_dec 0 S) as [Hpos | Hneg].
  - assert (HS0 : 0 <= inject_Z S) by (unfold Qle; cbn; lia).
    assert (HS1 : inject_Z S <= 281474976710656).
    { change 281474976710656 with (inject_Z 281474976710656).
      rewrite <- Zle_Qle. lia. }
    destruct (Qdiv_le_num _ _ HS0 HK) as [Hx0 Hx1]. fold x in Hx0, Hx1.
    destruct (binary64_nonneg x Hx0) as [Hd1 Hd2]. fold d in Hd1, Hd2.
    unfold roundoff in *. change (1 # 2 ^ 53) with (1 # 9007199254740992) in *.
    exists false, (Qfloor (d * 10 + (1 # 2))). split; [| split].
    + apply toFixed1_nonneg; [lra |].
      change (inject_Z (10 ^ 21)) with 1000000000000000000000. lra.
    + change 0%Z with (Qfloor 0). apply Qfloor_resp_le. lra.
    + unfold nearestTenth. fold x. change (inject_Z 10) with 10.
      apply tenths_scale.
      apply (floor_half_nearest (10 * S) k); [exact Hk | |].
      * rewrite inject_Z_mult. change (inject_Z 10) with 10.
        rewrite <- ExK. ring.
      * rewrite inject_Z_mult. change (inject_Z 2) with 2.
        set (a := Qabs (d * 10 - x * 10)).
        assert (Ha : a <= x * (10 # 9007199254740992)).
        { unfold a. apply Qabs_Qle_condition. split; lra. }
        assert (Hm : a * (2 * inject_Z k)
                     <= x * (10 # 9007199254740992) * (2 * inject_Z k)).
        { apply Qmult_le_compat_r; lra. }
        assert (E : x * (10 # 9007199254740992) * (2 * inject_Z k)
                    == inject_Z S * (20 # 9007199254740992)).
        { rewrite <- ExK. ring. }
        rewrite E in Hm. lra.
  - assert (HS0 : inject_Z S < 0) by (unfold Qlt; cbn; lia).
    assert (HS1 : -281474976710656 <= inject_Z S).
    { change (-281474976710656) with (inject_Z (-281474976710656)).
      rewrite <- Zle_Qle. lia. }
    assert (HmS : 0 <= - inject_Z S) by lra.
    destruct (Qdiv_le_num _ _ HmS HK) as [Hx0 Hx1].
    assert (Ex : - inject_Z S / inject_Z k == - x) by (unfold x; field; lra).
    rewrite Ex in Hx0, Hx1.
    assert (Hxneg : x < 0).
    { destruct (Qlt_le_dec x 0) as [H | H]; [exact H | exfalso].
      assert (0 <= x * inject_Z k) by (apply Qmult_le_0_compat; lra).
      lra. }
    assert (Hx' : x <= 0) by lra.
    destruct (binary64_nonpos x Hx') as [Hd1 Hd2]. fold d in Hd1, Hd2.
    unfold roundoff in *. change (1 # 2 ^ 53) with (1 # 9007199254740992) in *.
    exists true, (Qfloor (- d * 10 + (1 # 2))). split; [| split].
    + apply toFixed1_neg; [lra |].
      change (inject_Z (10 ^ 21)) with 1000000000000000000000. lra.
    + change 0%Z with (Qfloor 0). apply Qfloor_resp_le. lra.
    + unfold nearestTenth. fold x. change (inject_Z 10) with 10.
      rewrite inject_Z_opp.
      set (N := inject_Z (Qfloor (- d * 10 + (1 # 2)))).
      assert (Hn : Qabs (N - (- x) * 10) <= 1 # 2).
      { apply (floor_half_nearest (- (10 * S)) k); [exact Hk | |].
        * rewrite inject_Z_opp, inject_Z_mult. change (inject_Z 10) with 10.
          rewrite <- ExK. ring.
        * rewrite inject_Z_mult. change (inject_Z 2) with 2.
          set (a := Qabs (- d * 10 - - x * 10)).
          assert (Ha : a <= - x * (10 # 9007199254740992)).
          { unfold a. apply Qabs_Qle_condition. split; lra. }
          assert (Hm : a * (2 * inject_Z k)
                       <= - x * (10 # 9007199254740992) * (2 * inject_Z k)).
          { apply Qmult_le_compat_r; lra. }
          assert (E : - x * (10 # 9007199254740992) * (2 * inject_Z k)
                      == - inject_Z S * (20 # 9007199254740992)).
          { rewrite <- ExK. ring. }
          rewrite E in Hm. lra. }
      apply tenths_scale in Hn.
      apply Qabs_Qle_condition in Hn. apply Qabs_Qle_condition.
      assert (E1 : - N / 10 == - (N / 10)) by (field).
      rewrite E1. lra.
Qed.

End Quotient.

End NumberFacts.

Section Tenths.

Import JsNumber.

Lemma to_uint_nonnil (n : N) : N.to_uint n <> Decimal.Nil.
Proof.
  destruct n as [| p]; [discriminate |].
  cbn. apply DecimalPos.Unsigned.to_uint_nonnil.
Qed.

Lemma readDigits_digits (n : Z) : 0 <= n -> readDigits (digits n) = Some n.
Proof.
  intros Hn. unfold readDigits, digits.
  rewrite NilZero.usu by apply to_uint_nonnil.
  cbn [option_map]. rewrite DecimalN.Unsigned.of_to. f_equal. lia.
Qed.

Lemma splitPoint_uint (d : Decimal.uint) (rest : string) :
  splitPoint (NilEmpty.string_of_uint d ++ String "." rest)
  = Some (NilEmpty.string_of_uint d, rest).
Proof.
  induction d; cbn [NilEmpty.string_of_uint String.append splitPoint];
    try reflexivity;
    (rewrite IHd; reflexivity).
Qed.

Lemma splitPoint_digits (n : Z) (rest : string) :
  splitPoint (digits n ++ String "." rest) = Some (digits n, rest).
Proof.
  unfold digits. destruct (N.to_uint (Z.to_N n)) eqn:E;
    try (rewrite <- E; fail);
    try exact (splitPoint_uint _ rest).
  reflexivity.
Qed.

Lemma digits_no_minus (n : Z) :
  match digits n with
  | String c _ => Ascii.eqb c "-" = false
  | EmptyString => False
  end.
Proof.
  unfold digits. destruct (N.to_uint (Z.to_N n)); reflexivity.
Qed.

Lemma readTenths_digits (negative : bool) (n : Z) :
  0 <= n ->
  readTenths negative (digits (n / 10) ++ "." ++ digits (n mod 10))
  = Some (negative, n).
Proof.
  intros Hn. unfold readTenths.
  change ("." ++ digits (n mod 10))%string
    with (String "." (digits (n mod 10))).
  rewrite splitPoint_digits.
  rewrite !readDigits_digits by (Z.div_mod_to_equations; lia).
  do 2 f_equal. Z.div_mod_to_equations; lia.
Qed.

(** The text of [n] tenths reads back as [n]. *)
Lemma readFixed1_fixed1 (negative : bool) (n : Z) :
  0 <= n -> readFixed1 (fixed1 negative n) = Some (negative, n).
Proof.
  intros Hn. unfold fixed1. destruct negative.
  - apply (readTenths_digits true n Hn).
  - change ("" ++ digits (n / 10) ++ "." ++ digits (n mod 10))%string
      with (digits (n / 10) ++ "." ++ digits (n mod 10))%string.
    pose proof (readTenths_digits false n Hn) as Hread.
    pose proof (digits_no_minus (n / 10)) as Hc.
    destruct (digits (n / 10)) as [| c whole]; [contradiction |].
    cbn [String.append readFixed1] in *. now rewrite Hc.
Qed.

Lemma fixed1_inj (neg neg' : bool) (n m : Z) :
  0 <= n -> 0 <= m -> fixed1 neg n = fixed1 neg' m -> neg = neg' /\ n = m.
Proof.
  intros Hn Hm H. apply (f_equal readFixed1) in H.
  rewrite !readFixed1_fixed1 in H by assumption.
  injection H as -> ->. now split.
Qed.

End Tenths.

(* ================================================================== *)
(** ** The gaps between the years *)
(* ================================================================== *)

Lemma gapsOf_cons2 (a b : Z) (l : list Z) :
  gapsOf (a :: b :: l) = (b - a) :: gapsOf (b :: l).
Proof.
  unfold gapsOf. cbn [List.length].
  replace (S (S (List.length l)) - 1)%nat with (S (List.length l)) by lia.
  replace (S (List.length l) - 1)%nat with (List.length l) by lia.
  cbn [seq map nth Nat.sub]. f_equal.
  rewrite <- seq_shift, map_map.
  apply map_ext_in. intros i Hi. apply in_seq in Hi.
  destruct i as [| i]; [lia |].
  cbn [nth Nat.sub]. now rewrite Nat.sub_0_r.
Qed.

Lemma gapsOf_differences (years : list Z) : gapsOf years = differences years.
Proof.
  induction years as [| a l IH]; [reflexivity |].
  destruct l as [| b l]; [reflexivity |].
  rewrite gapsOf_cons2, IH. reflexivity.
Qed.

Lemma fold_left_add (l : list Z) :
  forall a, fold_left Z.add l a = a + sumZ l.
Proof.
  induction l as [| x l IH]; intros a; cbn [fold_left sumZ fold_right].
  - lia.
  - rewrite IH. unfold sumZ. lia.
Qed.

Lemma differences_length (years : list Z) :
  List.length (differences years) = (List.length years - 1)%nat.
Proof.
  induction years as [| a l IH]; [reflexivity |].
  destruct l as [| b l]; [reflexivity |].
  change (differences (a :: b :: l)) with ((b - a) :: differences (b :: l)).
  cbn [List.length] in *. rewrite IH. lia.
Qed.

Lemma last_cons (l : list Z) :
  forall a b, last (b :: l) a = last l b.
Proof.
  induction l as [| c l IH]; intros a b; [reflexivity |].
  change (last (b :: c :: l) a) with (last (c :: l) a).
  now rewrite !IH.
Qed.

(** The differences add up to the last year minus the first. *)
Lemma differences_sum (l : list Z) :
  forall a, sumZ (differences (a :: l)) = last l a - a.
Proof.
  induction l as [| b l IH]; intros a.
  - cbn. lia.
  - change (differences (a :: b :: l)) with ((b - a) :: differences (b :: l)).
    unfold sumZ in *. cbn [fold_right]. rewrite IH, last_cons. lia.
Qed.

Lemma last_Forall (P : Z -> Prop) (l : list Z) (a : Z) :
  P a -> Forall P l -> P (last l a).
Proof.
  intros Ha Hl. revert a Ha.
  induction Hl as [| b l Hb Hl IH]; intros a Ha; [exact Ha |].
  rewrite last_cons. apply (IH b Hb).
Qed.

Lemma differences_sum_bound (years : list Z) :
  Forall yearLike years -> Z.abs (sumZ (differences years)) <= 2 ^ 48.
Proof.
  intros H. destruct H as [| a l Ha Hl]; [cbn; lia |].
  rewrite differences_sum.
  pose proof (last_Forall yearLike l a Ha Hl) as Hlast.
  unfold yearLike in *. change (2 ^ 48) with (2 * 2 ^ 47). lia.
Qed.

(* ================================================================== *)
(** ** The statistics *)
(* ================================================================== *)

Section StatisticsFacts.

Import JsNumber NumberFacts.
Variable NumberToString : Q -> string.

(** C6: for a range with [start <= end] and no years, the statistics are
    the count 0, the frequency "0.0", the text "None in range" for the
    next year and "-" for the average gap.  The divisor [totalYears] is at
    least 1, so the quotient is the number 0, not NaN and not Infinity. *)
Theorem empty_statistics
    (this : ChristmasSundayFinder) (startYear endYear : Z) :
  startYear <= endYear ->
  calculateStatistics NumberToString this [] startYear endYear
  = mkStatistics 0 "0.0" (Str "None in range") "-" /\
  div (ofZ 0) (ofZ (endYear - startYear + 1)) = Finite 0.
Proof.
  intros Hrange.
  assert (Hd : div (ofZ 0) (ofZ (endYear - startYear + 1)) = Finite 0).
  { rewrite div_ofZ by lia. reflexivity. }
  split; [| exact Hd].
  unfold calculateStatistics. cbn [List.length Z.of_nat].
  rewrite Hd. reflexivity.
Qed.

(** C7: for a range with [start <= end] and a list of years (an array,
    so shorter than 2^32), the frequency is the text of [n] tenths, for an
    [n] whose tenths are nearest to [count / (end - start + 1) * 100]:
    that quotient, rounded to one decimal place. *)
Theorem frequency_rounded
    (this : ChristmasSundayFinder) (years : list Z) (startYear endYear : Z) :
  startYear <= endYear ->
  Z.of_nat (List.length years) < 2 ^ 32 ->
  exists n : Z,
    frequency (calculateStatistics NumberToString this years
                 startYear endYear)
    = fixed1 false n /\
    0 <= n /\
    nearestTenth
      (frequencyPercent (List.length years) startYear endYear) n.
Proof.
  intros Hrange Hlen.
  unfold calculateStatistics. cbn [frequency].
  set (c := Z.of_nat (List.length years)) in *.
  set (t := endYear - startYear + 1).
  assert (Hc : 0 <= c) by (unfold c; lia).
  assert (Ht : 1 <= t) by (unfold t; lia).
  rewrite div_ofZ by lia. unfold mul, ofZ.
  set (r := (inject_Z c / inject_Z t)%Q).
  set (q1 := binary64 r). set (q2 := binary64 (q1 * inject_Z 100)).
  assert (HC0 : (0 <= inject_Z c)%Q) by (unfold Qle; cbn; lia).
  assert (HC1 : (inject_Z c <= 4294967295)%Q).
  { change 4294967295%Q with (inject_Z 4294967295). rewrite <- Zle_Qle.
    change (2 ^ 32) with 4294967296 in Hlen. lia. }
  assert (HT : (1 <= inject_Z t)%Q) by (unfold Qle; cbn; lia).
  destruct (Qdiv_le_num _ _ HC0 HT) as [Hr0 Hr1]. fold r in Hr0, Hr1.
  assert (ErT : (r * inject_Z t == inject_Z c)%Q) by (unfold r; field; lra).
  destruct (binary64_nonneg r Hr0) as [Hq1a Hq1b]. fold q1 in Hq1a, Hq1b.
  change (inject_Z 100) with 100%Q in *.
  unfold roundoff in *. change (1 # 2 ^ 53) with (1 # 9007199254740992) in *.
  assert (Hq10 : (0 <= q1 * 100)%Q) by lra.
  destruct (binary64_nonneg _ Hq10) as [Hq2a Hq2b]. fold q2 in Hq2a, Hq2b.
  unfold roundoff in *. change (1 # 2 ^ 53) with (1 # 9007199254740992) in *.
  assert (Hq20 : (0 <= q2)%Q) by lra.
  exists (Qfloor (q2 * 10 + (1 # 2))).
  split; [| split].
  - apply toFixed1_nonneg; [exact Hq20 |].
    change (inject_Z (10 ^ 21)) with 1000000000000000000000%Q. lra.
  - change 0 with (Qfloor 0). apply Qfloor_resp_le. lra.
  - unfold nearestTenth, frequencyPercent. fold c t r.
    change (inject_Z 100) with 100%Q. change (inject_Z 10) with 10%Q.
    apply tenths_scale.
    setoid_replace (r * 100 * 10)%Q with (r * 1000)%Q by ring.
    apply (floor_half_nearest (1000 * c) t).
    + exact Ht.
    + rewrite inject_Z_mult. change (inject_Z 1000) with 1000%Q.
      rewrite <- ErT. ring.
    + rewrite inject_Z_mult. change (inject_Z 2) with 2%Q.
      set (a := Qabs (q2 * 10 - r * 1000)).
      assert (Ha : (a <= r * (1 # 1000000000000))%Q).
      { unfold a. apply Qabs_Qle_condition. split; lra. }
      assert (Hm : (a * (2 * inject_Z t)
                    <= r * (1 # 1000000000000) * (2 * inject_Z t))%Q).
      { apply Qmult_le_compat_r; lra. }
      assert (E : (r * (1 # 1000000000000) * (2 * inject_Z t)
                   == inject_Z c * (2 # 1000000000000))%Q).
      { rewrite <- ErT. ring. }
      rewrite E in Hm. lra.
Qed.

(** C8, amended: for a list of at least two years, each within 2^47 in
    magnitude, the average gap is the text of [n] tenths, with a minus
    sign for a negative number, whose tenths are nearest to the
    arithmetic mean of the consecutive differences: the mean, rounded to
    one decimal place.  For a shorter list it is "-". *)
Theorem average_gap_rounded
    (this : ChristmasSundayFinder) (years : list Z) (startYear endYear : Z) :
  ((2 <= List.length years)%nat ->
   Forall yearLike years ->
   exists (negative : bool) (n : Z),
     gap (calculateStatistics NumberToString this years startYear endYear)
     = fixed1 negative n /\
     0 <= n /\
     nearestTenth (meanGap years) (if negative then - n else n)) /\
  ((List.length years < 2)%nat ->
   gap (calculateStatistics NumberToString this years startYear endYear)
   = "-"%string).
Proof.
  unfold calculateStatistics. cbn [gap].
  rewrite gapsOf_differences, fold_left_add, Z.add_0_l.
  pose proof (differences_length years) as Hl.
  split.
  - intros Hlen Hyears.
    destruct (Nat.ltb_spec 0 (List.length (differences years))); [| lia].
    unfold meanGap. apply toFixed1_quotient.
    + now apply differences_sum_bound.
    + lia.
  - intros Hlen.
    destruct (Nat.ltb_spec 0 (List.length (differences years)));
      [lia | reflexivity].
Qed.

(** C9, amended: the statistics are a function of the list, the bounds
    and the instance's [currentYear], which the constructor took from the
    clock.  The count, the frequency and the average gap are the same for
    every instance; the next year is the same for instances of one
    [currentYear], such as those made within one calendar year. *)
Theorem calculateStatistics_instance
    (this this' : ChristmasSundayFinder) (years : list Z)
    (startYear endYear : Z) :
  let r := calculateStatistics NumberToString this years startYear endYear in
  let r' :=
    calculateStatistics NumberToString this' years startYear endYear in
  total r = total r' /\
  frequency r = frequency r' /\
  gap r = gap r' /\
  next r = nextSunday this years /\
  (currentYear this = currentYear this' -> r = r') /\
  (forall tz clock clock',
     this = newFinder tz clock -> this' = newFinder tz clock' ->
     Date.YearFromTime (Date.LocalTime tz clock)
     = Date.YearFromTime (Date.LocalTime tz clock') ->
     r = r').
Proof.
  cbv zeta. repeat split.
  - intros H. destruct this as [c], this' as [c']. cbn in H. now subst c'.
  - intros tz clock clock' -> -> H. unfold newFinder, Date.getFullYear.
    cbn [Date.now Date.DateValue]. now rewrite H.
Qed.

End StatisticsFacts.

Lemma empty_statistics_witness :
  2000 <= 2025 /\
  calculateStatistics blankToString (mkFinder (Some 2026)) [] 2000 2025
  = mkStatistics 0 "0.0" (Str "None in range") "-" /\
  JsNumber.div (JsNumber.ofZ 0) (JsNumber.ofZ (2025 - 2000 + 1))
  = JsNumber.Finite 0.
Proof.
  split; [lia |].
  apply (empty_statistics blankToString (mkFinder (Some 2026)) 2000 2025).
  lia.
Defined.

Lemma frequency_rounded_witness :
  2000 <= 2025 /\
  Z.of_nat (List.length [2005; 2011; 2016; 2022]) < 2 ^ 32 /\
  exists n : Z,
    frequency (calculateStatistics blankToString (mkFinder (Some 2026))
                 [2005; 2011; 2016; 2022] 2000 2025)
    = JsNumber.fixed1 false n /\
    0 <= n /\
    nearestTenth
      (frequencyPercent (List.length [2005; 2011; 2016; 2022]) 2000 2025) n.
Proof.
  split; [lia | split; [reflexivity |]].
  apply (frequency_rounded blankToString (mkFinder (Some 2026))
           [2005; 2011; 2016; 2022] 2000 2025); [lia | reflexivity].
Defined.

Lemma average_gap_rounded_witness :
  exists (negative : bool) (n : Z),
    gap (calculateStatistics blankToString (mkFinder (Some 2026))
           [2005; 2011; 2016; 2022] 2000 2025)
    = JsNumber.fixed1 negative n /\
    0 <= n /\
    nearestTenth (meanGap [2005; 2011; 2016; 2022])
      (if negative then - n else n).
Proof.
  apply (average_gap_rounded blankToString (mkFinder (Some 2026))
           [2005; 2011; 2016; 2022] 2000 2025).
  - cbn. lia.
  - repeat constructor; unfold yearLike; cbn; lia.
Defined.

(** C8, as the specification has it, fails on large numbers: the list
    0, 1, 2, 9000000000000001 has the gaps 1, 1 and 8999999999999999,
    whose mean is 3000000000000000 + 1/3.  The quotient is rounded to
    binary64 first, to 3000000000000000.5, and the average gap reads
    "3000000000000000.5": no text of tenths nearest to the mean. *)
Lemma average_gap_not_rounded :
  let years := [0; 1; 2; 9000000000000001] in
  (2 <= List.length years)%nat /\
  differences years = [1; 1; 8999999999999999] /\
  gap (calculateStatistics blankToString (mkFinder (Some 2026)) years
         2000 2025)
  = "3000000000000000.5"%string /\
  ~ (exists (negative : bool) (n : Z),
       gap (calculateStatistics blankToString (mkFinder (Some 2026)) years
              2000 2025)
       = JsNumber.fixed1 negative n /\
       0 <= n /\
       nearestTenth (meanGap years) (if negative then - n else n)).
Proof.
  cbv zeta.
  assert (E : gap (calculateStatistics blankToString (mkFinder (Some 2026))
                     [0; 1; 2; 9000000000000001] 2000 2025)
              = JsNumber.fixed1 false 30000000000000005)
    by (vm_compute; reflexivity).
  split; [cbn; lia |].
  split; [reflexivity |].
  split; [vm_compute; reflexivity |].
  intros [negative [n [H [Hn Hnear]]]].
  rewrite E in H. apply fixed1_inj in H; [| lia | exact Hn].
  destruct H as [<- <-]. unfold nearestTenth in Hnear.
  vm_compute in Hnear. now apply Hnear.
Qed.

(** C9, as the specification has it, fails: the same list and bounds give
    the next year 2022 to an instance made in 2020 and "None in range" to
    one made in 2023. *)
Lemma calculateStatistics_depends_on_clock :
  let early := newFinder DateFacts.utcZone 1600000000000 in
  let late := newFinder DateFacts.utcZone 1700000000000 in
  currentYear early = Some 2020 /\
  currentYear late = Some 2023 /\
  next (calculateStatistics blankToString early [2022] 2000 2025)
  = Num 2022 /\
  next (calculateStatistics blankToString late [2022] 2000 2025)
  = Str "None in range" /\
  calculateStatistics blankToString early [2022] 2000 2025
  <> calculateStatistics blankToString late [2022] 2000 2025.
Proof.
  cbv zeta. repeat split; try (vm_compute; reflexivity).
  intros H. apply (f_equal next) in H. vm_compute in H. discriminate H.
Qed.

Lemma calculateStatistics_instance_witness :
  calculateStatistics blankToString
    (newFinder DateFacts.utcZone 1700000000000) [2022] 2000 2025
  = calculateStatistics blankToString
      (newFinder DateFacts.utcZone 1700000100000) [2022] 2000 2025.
Proof.
  apply (calculateStatistics_instance blankToString
           (newFinder DateFacts.utcZone 1700000000000)
           (newFinder DateFacts.utcZone 1700000100000)
           [2022] 2000 2025) with (tz := DateFacts.utcZone)
           (clock := 1700000000000) (clock' := 1700000100000);
    reflexivity.
Defined.

(** The statistics the page shows for the years 2000 to 2025, to a
    visitor of 2020. *)
Example statistics_2000_2025 :
  calculateStatistics blankToString
    (newFinder DateFacts.estZone 1600000000000)
    (findXmasSunday DateFacts.estZone 2000 2025) 2000 2025
  = mkStatistics 4 "15.4" (Num 2022) "5.7".
Proof. vm_compute. reflexivity. Qed.

(** A mean on the midpoint between two tenths goes the way of its
    binary64 neighbour: 1/4 is itself and goes up, 7/20 is held a little
    low and goes down. *)
Example toFixed1_midpoints :
  JsNumber.toFixed1 blankToString
    (JsNumber.div (JsNumber.ofZ 1) (JsNumber.ofZ 4)) = "0.3"%string /\
  JsNumber.toFixed1 blankToString
    (JsNumber.div (JsNumber.ofZ 7) (JsNumber.ofZ 20)) = "0.3"%string.
Proof. split; vm_compute; reflexivity. Qed.

(** Beyond [yearLike] the rounding of the quotient shows.  The gaps of
    0, 1, 2, 9000000000000001 have the mean 3000000000000000 + 1/3, which
    binary64 holds as 3000000000000000.5: no number of years does this. *)
Example average_gap_beyond_years :
  gap (calculateStatistics blankToString (mkFinder (Some 2026))
         [0; 1; 2; 9000000000000001] 2000 2025)
  = "3000000000000000.5"%string /\
  ~ nearestTenth (meanGap [0; 1; 2; 9000000000000001]) 30000000000000005.
Proof.
  split; [vm_compute; reflexivity |].
  unfold nearestTenth. intros H. vm_compute in H. now apply H.
Qed.

(* ================================================================== *)
(** ** More on the year search *)
(* ================================================================== *)

(** X1: the years [findXmasSunday] returns do not depend on the time zone
    of the host. *)
Theorem findXmasSunday_time_zone (tz tz' : Date.TimeZone)
    (startYear endYear : Z) :
  findXmasSunday tz startYear endYear = findXmasSunday tz' startYear endYear.
Proof. now rewrite !findXmasSunday_filter. Qed.

Lemma yearsFrom_app (a b : nat) :
  forall year,
    yearsFrom year (a + b)
    = yearsFrom year a ++ yearsFrom (year + Z.of_nat a) b.
Proof.
  induction a as [| a IH]; intros year.
  - cbn. now rewrite Z.add_0_r.
  - cbn [Nat.add yearsFrom app]. rewrite IH. do 3 f_equal. lia.
Qed.

(** X2: a range can be searched in two parts: the years of
    [start..end] are those of [start..middle] followed by those of
    [middle + 1..end]. *)
Theorem findXmasSunday_split (tz : Date.TimeZone)
    (startYear middle endYear : Z) :
  startYear <= middle + 1 -> middle <= endYear ->
  findXmasSunday tz startYear endYear
  = findXmasSunday tz startYear middle
    ++ findXmasSunday tz (middle + 1) endYear.
Proof.
  intros H1 H2. rewrite !findXmasSunday_filter, <- filter_app.
  f_equal.
  replace (Z.to_nat (endYear - startYear + 1))
    with (Z.to_nat (middle - startYear + 1)
          + Z.to_nat (endYear - (middle + 1) + 1))%nat by lia.
  rewrite yearsFrom_app. do 2 f_equal. lia.
Qed.

Lemma findXmasSunday_split_witness :
  2000 <= 2010 + 1 /\ 2010 <= 2025 /\
  findXmasSunday DateFacts.estZone 2000 2025
  = findXmasSunday DateFacts.estZone 2000 2010
    ++ findXmasSunday DateFacts.estZone (2010 + 1) 2025.
Proof.
  split; [lia | split; [lia |]].
  apply (findXmasSunday_split DateFacts.estZone 2000 2010 2025); lia.
Defined.

(** Four centuries are a whole number of weeks. *)
Lemma zeller_period (y k : Z) :
  Gregorian.zeller (y + 400 * k) 12 25 = Gregorian.zeller y 12 25.
Proof.
  unfold Gregorian.zeller. change (12 <=? 2) with false. cbv iota.
  change (13 * (12 + 1) / 5) with 33.
  Z.div_mod_to_equations; lia.
Qed.

Lemma isSunday_period (y k : Z) :
  Gregorian.isSunday (y + 400 * k) 12 25 = Gregorian.isSunday y 12 25.
Proof. unfold Gregorian.isSunday. now rewrite zeller_period. Qed.

Lemma xmasOnSunday_plain (y : Z) :
  plainYear y -> xmasOnSunday y = Gregorian.isSunday y 12 25.
Proof.
  intros [Hfar Hrep]. unfold xmasOnSunday.
  rewrite MakeFullYear_far by exact Hfar.
  unfold representable.
  destruct (Z.leb_spec (-271821) y); destruct (Z.leb_spec y 275759);
    cbn [andb]; try lia. reflexivity.
Qed.

Lemma yearsFrom_shift (n : nat) :
  forall year d, yearsFrom (year + d) n = map (fun y => y + d) (yearsFrom year n).
Proof.
  induction n as [| n IH]; intros year d; [reflexivity |].
  cbn [yearsFrom map]. f_equal.
  replace (year + d + 1) with (year + 1 + d) by lia. apply IH.
Qed.

Lemma filter_map_comm {A B : Type} (f : A -> B) (p : B -> bool) (l : list A) :
  filter p (map f l) = map f (filter (fun x => p (f x)) l).
Proof.
  induction l as [| a l IH]; [reflexivity |].
  cbn [map filter]. destruct (p (f a)); cbn [map]; now rewrite IH.
Qed.

(** X3: the search repeats every 400 years.  For a range clear of the
    years 0..99, four centuries later the years found are the same ones,
    400 more each. *)
Theorem findXmasSunday_period (tz : Date.TimeZone) (startYear endYear : Z) :
  99 < startYear -> endYear + 400 <= 275759 ->
  findXmasSunday tz (startYear + 400) (endYear + 400)
  = map (fun y => y + 400) (findXmasSunday tz startYear endYear).
Proof.
  intros Hlo Hhi. rewrite !findXmasSunday_filter.
  replace (endYear + 400 - (startYear + 400) + 1)
    with (endYear - startYear + 1) by lia.
  rewrite yearsFrom_shift, filter_map_comm. f_equal.
  apply filter_ext_in. intros y Hy. apply In_yearsFrom in Hy.
  rewrite !xmasOnSunday_plain by (unfold plainYear; lia).
  exact (isSunday_period y 1).
Qed.

Lemma findXmasSunday_period_witness :
  99 < 1600 /\ 2000 + 400 <= 275759 /\
  findXmasSunday DateFacts.estZone (1600 + 400) (2000 + 400)
  = map (fun y => y + 400) (findXmasSunday DateFacts.estZone 1600 2000).
Proof.
  split; [lia | split; [lia |]].
  apply (findXmasSunday_period DateFacts.estZone 1600 2000); lia.
Defined.

Lemma spaced_period :
  forallb spacedAt (yearsFrom 2000 400) = true.
Proof. vm_compute. reflexivity. Qed.

Lemma spacedAt_all (y : Z) : spacedAt y = true.
Proof.
  set (r := 2000 + (y - 2000) mod 400). set (k := (y - 2000) / 400).
  assert (Hy : y = r + 400 * k)
    by (unfold r, k; Z.div_mod_to_equations; lia).
  assert (Hr : In r (yearsFrom 2000 400)).
  { apply In_yearsFrom. unfold r. Z.div_mod_to_equations; lia. }
  pose proof spaced_period as H. rewrite forallb_forall in H.
  specialize (H r Hr). rewrite <- H. unfold spacedAt, sunday.
  assert (E : forall d,
             Gregorian.isSunday (y + d) 12 25
             = Gregorian.isSunday (r + d) 12 25).
  { intros d. replace (y + d) with (r + d + 400 * k) by lia.
    apply isSunday_period. }
  cbn [forallb existsb]. rewrite !E.
  replace y with (r + 400 * k) at 1 by lia. rewrite isSunday_period.
  reflexivity.
Qed.

Lemma sunday_apart (y d : Z) :
  sunday y = true -> 1 <= d <= 4 -> sunday (y + d) = false.
Proof.
  intros Hs Hd. pose proof (spacedAt_all y) as H. unfold spacedAt in H.
  rewrite Hs in H. cbn [negb orb forallb] in H.
  apply andb_prop in H. destruct H as [H _].
  repeat (apply andb_prop in H; destruct H as [?H H]).
  assert (Hc : d = 1 \/ d = 2 \/ d = 3 \/ d = 4) by lia.
  destruct Hc as [-> | [-> | [-> | ->]]];
    match goal with
    | Hn : negb (sunday (y + ?c)) = true |- sunday (y + ?c) = false =>
        now apply negb_true_iff in Hn
    end.
Qed.

Lemma sunday_within (y : Z) :
  exists d, 0 <= d <= 10 /\ sunday (y + d) = true.
Proof.
  pose proof (spacedAt_all y) as H. unfold spacedAt in H.
  apply andb_prop in H. destruct H as [_ H].
  apply existsb_exists in H. destruct H as [d [Hin Hd]].
  exists d. split; [| exact Hd].
  cbn in Hin. lia.
Qed.

(** The head of a filtered run of years is the first year that passes. *)
Lemma filter_yearsFrom_head (p : Z -> bool) (n : nat) :
  forall year h t,
    filter p (yearsFrom year n) = h :: t ->
    year <= h < year + Z.of_nat n /\ p h = true /\
    (forall i, year <= i < h -> p i = false) /\
    t = filter p (yearsFrom (h + 1) (Z.to_nat (year + Z.of_nat n - (h + 1)))).
Proof.
  induction n as [| n IH]; intros year h t H; [discriminate |].
  cbn [yearsFrom filter] in H. destruct (p year) eqn:Hp.
  - injection H as <- <-. repeat split; try lia; try assumption.
    f_equal. f_equal. lia.
  - apply IH in H. destruct H as [H1 [H2 [H3 H4]]].
    repeat split; try lia; try assumption.
    + intros i Hi. destruct (Z.eq_dec i year) as [-> | Hne];
        [exact Hp | apply H3; lia].
    + rewrite H4. do 2 f_equal. lia.
Qed.

Lemma filter_yearsFrom_none (p : Z -> bool) (n : nat) (year : Z) :
  filter p (yearsFrom year n) = [] ->
  forall i, year <= i < year + Z.of_nat n -> p i = false.
Proof.
  intros H i Hi.
  assert (Hin : In i (yearsFrom year n)) by (apply In_yearsFrom; lia).
  destruct (p i) eqn:Hp; [| reflexivity].
  assert (Hf : In i (filter p (yearsFrom year n)))
    by (apply filter_In; now split).
  rewrite H in Hf. destruct Hf.
Qed.

(** The gaps of the Sunday years of a run are 5 to 11 years. *)
Lemma sunday_gaps (n : nat) :
  forall year,
    Forall (fun d => 5 <= d <= 11)
           (differences (filter sunday (yearsFrom year n))).
Proof.
  induction n as [n IHn] using lt_wf_ind. intros year.
  destruct (filter sunday (yearsFrom year n)) as [| a l] eqn:E;
    [constructor |].
  apply filter_yearsFrom_head in E. destruct E as [Ha [Hpa [_ Ht]]].
  set (m := Z.to_nat (year + Z.of_nat n - (a + 1))) in *.
  assert (Hm : (m < n)%nat) by (unfold m; lia).
  pose proof (IHn m Hm (a + 1)) as IH. rewrite <- Ht in IH.
  destruct l as [| b l']; [constructor |].
  change (differences (a :: b :: l'))
    with ((b - a) :: differences (b :: l')).
  constructor; [| exact IH].
  symmetry in Ht. apply filter_yearsFrom_head in Ht.
  destruct Ht as [Hb [Hpb [Hnone _]]].
  split.
  - destruct (Z_lt_le_dec (b - a) 5) as [Hlt | Hge]; [exfalso | lia].
    pose proof (sunday_apart a (b - a) Hpa ltac:(lia)) as Hc.
    replace (a + (b - a)) with b in Hc by lia. congruence.
  - destruct (sunday_within (a + 1)) as [d [Hd Hs]].
    destruct (Z_lt_le_dec (a + 1 + d) b) as [Hlt | Hge]; [exfalso | lia].
    rewrite Hnone in Hs by lia. discriminate.
Qed.

Lemma findXmasSunday_plain (tz : Date.TimeZone) (startYear endYear : Z) :
  endYear < 0 \/ 99 < startYear ->
  -271821 <= startYear -> endYear <= 275759 ->
  findXmasSunday tz startYear endYear
  = filter sunday (yearsFrom startYear (Z.to_nat (endYear - startYear + 1))).
Proof.
  intros Hfar Hlo Hhi. rewrite findXmasSunday_filter.
  apply filter_ext_in. intros y Hy. apply In_yearsFrom in Hy.
  apply xmasOnSunday_plain. unfold plainYear. lia.
Qed.

(** X4: two Sunday Christmases in a row are at least 5 and at most 11
    years apart, in any range clear of the years 0..99 and within the
    years a Date holds. *)
Theorem findXmasSunday_gaps (tz : Date.TimeZone) (startYear endYear : Z) :
  endYear < 0 \/ 99 < startYear ->
  -271821 <= startYear -> endYear <= 275759 ->
  Forall (fun d => 5 <= d <= 11)
         (differences (findXmasSunday tz startYear endYear)).
Proof.
  intros Hfar Hlo Hhi. rewrite findXmasSunday_plain by assumption.
  apply sunday_gaps.
Qed.

Lemma findXmasSunday_gaps_witness :
  (2100 < 0 \/ 99 < 1900) /\ -271821 <= 1900 /\ 2100 <= 275759 /\
  Forall (fun d => 5 <= d <= 11)
         (differences (findXmasSunday DateFacts.estZone 1900 2100)).
Proof.
  split; [lia | split; [lia | split; [lia |]]].
  apply (findXmasSunday_gaps DateFacts.estZone 1900 2100); lia.
Defined.

(** X5: a range of eleven years or more has a Sunday Christmas. *)
Theorem findXmasSunday_nonempty (tz : Date.TimeZone)
    (startYear endYear : Z) :
  endYear < 0 \/ 99 < startYear ->
  -271821 <= startYear -> endYear <= 275759 ->
  startYear + 10 <= endYear ->
  findXmasSunday tz startYear endYear <> [].
Proof.
  intros Hfar Hlo Hhi Hlen H.
  rewrite findXmasSunday_plain in H by assumption.
  destruct (sunday_within startYear) as [d [Hd Hs]].
  rewrite (filter_yearsFrom_none _ _ _ H) in Hs by lia. discriminate.
Qed.

Lemma findXmasSunday_nonempty_witness :
  (2010 < 0 \/ 99 < 2000) /\ -271821 <= 2000 /\ 2010 <= 275759 /\
  2000 + 10 <= 2010 /\
  findXmasSunday DateFacts.estZone 2000 2010 <> [].
Proof.
  split; [lia | split; [lia | split; [lia | split; [lia |]]]].
  apply (findXmasSunday_nonempty DateFacts.estZone 2000 2010); lia.
Defined.

Lemma yearsFrom_snoc (n : nat) :
  forall year,
    yearsFrom year (S n) = yearsFrom year n ++ [year + Z.of_nat n].
Proof.
  intros year. replace (S n) with (n + 1)%nat by lia.
  now rewrite yearsFrom_app.
Qed.

(** A window of 400 years holds as many Sunday Christmases wherever it
    starts. *)
Lemma sunday_window_step (year : Z) :
  List.length (filter sunday (yearsFrom (year + 1) 400))
  = List.length (filter sunday (yearsFrom year 400)).
Proof.
  assert (H : List.length (filter sunday (yearsFrom year 401))
              = List.length (filter sunday (yearsFrom year 401)))
    by reflexivity.
  rewrite (yearsFrom_snoc 400) in H at 1.
  change (yearsFrom year 401) with (year :: yearsFrom (year + 1) 400) in H.
  rewrite filter_app, length_app in H. cbn [filter] in H.
  assert (E : sunday (year + Z.of_nat 400) = sunday year)
    by exact (isSunday_period year 1).
  rewrite E in H. destruct (sunday year); cbn [List.length] in H; lia.
Qed.

Lemma sunday_window (year : Z) :
  List.length (filter sunday (yearsFrom year 400)) = 58%nat.
Proof.
  assert (Hup : forall k s,
             List.length (filter sunday (yearsFrom (s + Z.of_nat k) 400))
             = List.length (filter sunday (yearsFrom s 400))).
  { induction k as [| k IH]; intros s.
    - now rewrite Z.add_0_r.
    - replace (s + Z.of_nat (S k)) with (s + Z.of_nat k + 1) by lia.
      now rewrite sunday_window_step. }
  assert (H0 : List.length (filter sunday (yearsFrom 2000 400)) = 58%nat)
    by (vm_compute; reflexivity).
  destruct (Z_le_gt_dec year 2000) as [Hle | Hgt].
  - pose proof (Hup (Z.to_nat (2000 - year)) year) as H.
    replace (year + Z.of_nat (Z.to_nat (2000 - year))) with 2000 in H by lia.
    rewrite <- H. exact H0.
  - pose proof (Hup (Z.to_nat (year - 2000)) 2000) as H.
    replace (2000 + Z.of_nat (Z.to_nat (year - 2000))) with year in H by lia.
    rewrite H. exact H0.
Qed.

(** X6: any 400 years in a row hold 58 Sunday Christmases, and the
    frequency shown for them is "14.5". *)
Theorem findXmasSunday_400_years (tz : Date.TimeZone)
    (NumberToString : Q -> string) (this : ChristmasSundayFinder)
    (startYear : Z) :
  startYear + 399 < 0 \/ 99 < startYear ->
  -271821 <= startYear -> startYear + 399 <= 275759 ->
  List.length (findXmasSunday tz startYear (startYear + 399)) = 58%nat /\
  frequency (calculateStatistics NumberToString this
               (findXmasSunday tz startYear (startYear + 399))
               startYear (startYear + 399))
  = "14.5"%string.
Proof.
  intros Hfar Hlo Hhi.
  assert (Hlen : List.length (findXmasSunday tz startYear (startYear + 399))
                 = 58%nat).
  { rewrite findXmasSunday_plain by assumption.
    replace (Z.to_nat (startYear + 399 - startYear + 1)) with 400%nat by lia.
    apply sunday_window. }
  split; [exact Hlen |].
  unfold calculateStatistics. cbn [frequency]. rewrite Hlen.
  replace (startYear + 399 - startYear + 1) with 400 by lia.
  vm_compute. reflexivity.
Qed.

Lemma findXmasSunday_400_years_witness :
  (1900 + 399 < 0 \/ 99 < 1900) /\ -271821 <= 1900 /\
  1900 + 399 <= 275759 /\
  List.length (findXmasSunday DateFacts.estZone 1900 (1900 + 399)) = 58%nat /\
  frequency (calculateStatistics blankToString (mkFinder (Some 2026))
               (findXmasSunday DateFacts.estZone 1900 (1900 + 399))
               1900 (1900 + 399))
  = "14.5"%string.
Proof.
  split; [lia | split; [lia | split; [lia |]]].
  apply (findXmasSunday_400_years DateFacts.estZone blankToString
           (mkFinder (Some 2026)) 1900); lia.
Defined.

(* ================================================================== *)
(** ** More on the guards *)
(* ================================================================== *)

(** The guards, read as one condition. *)
Lemma findXmasSundays_display (tz : Date.TimeZone)
    (startValue endValue : option Z) (years : list Z)
    (startYear endYear : Z) :
  findXmasSundays tz startValue endValue
  = DisplayResults years startYear endYear
  <->
  startValue = Some startYear /\ endValue = Some endYear /\
  1900 <= startYear /\ startYear <= endYear /\ endYear <= 3000 /\
  years = findXmasSunday tz startYear endYear.
Proof.
  unfold findXmasSundays.
  destruct startValue as [s |], endValue as [e |];
    try (split; [discriminate | intros [H1 [H2 _]]; discriminate]).
  destruct (Z.eqb_spec s 0) as [Hs | Hs];
    destruct (Z.eqb_spec e 0) as [He | He]; cbn [orb];
    destruct (Z.gtb_spec s e) as [Hgt | Hle];
    destruct (Z.ltb_spec s 1900) as [Hlo | Hlo];
    destruct (Z.gtb_spec e 3000) as [Hhi | Hhi]; cbn [orb];
    (split;
     [ intros H; try discriminate H; injection H as <- <- <-;
       repeat split; lia
     | intros [H1 [H2 [H3 [H4 [H5 H6]]]]];
       injection H1 as <-; injection H2 as <-; try lia; now subst years ]).
Qed.

(** X7: [findXmasSundays] goes on to display exactly when both fields
    hold numbers with 1900 <= start <= end <= 3000, and what it displays
    is the search of that range. *)
Theorem findXmasSundays_accepts (tz : Date.TimeZone)
    (startValue endValue : option Z) (years : list Z)
    (startYear endYear : Z) :
  findXmasSundays tz startValue endValue
  = DisplayResults years startYear endYear
  <->
  startValue = Some startYear /\ endValue = Some endYear /\
  1900 <= startYear /\ startYear <= endYear /\ endYear <= 3000 /\
  years = findXmasSunday tz startYear endYear.
Proof. apply findXmasSundays_display. Qed.

(** X8: the years the page goes on to display are the right ones: the
    years of the entered range whose December 25 is a Sunday, in
    ascending order, 5 to 11 years apart, and at least one when the range
    has eleven years. *)
Theorem displayed_years (tz : Date.TimeZone)
    (startValue endValue : option Z) (years : list Z)
    (startYear endYear : Z) :
  findXmasSundays tz startValue endValue
  = DisplayResults years startYear endYear ->
  SoundComplete years startYear endYear /\
  Forall (fun y => startYear <= y <= endYear) years /\
  StronglySorted Z.lt years /\
  Forall (fun d => 5 <= d <= 11) (differences years) /\
  (startYear + 10 <= endYear -> years <> []).
Proof.
  intros H. apply findXmasSundays_display in H.
  destruct H as [_ [_ [Hlo [Hle [Hhi ->]]]]].
  assert (Hplain : findXmasSunday tz startYear endYear
                   = filter sunday
                       (yearsFrom startYear
                          (Z.to_nat (endYear - startYear + 1))))
    by (apply findXmasSunday_plain; lia).
  split; [| split; [| split; [| split]]].
  - intros y Hy. rewrite In_findXmasSunday.
    rewrite xmasOnSunday_plain by (unfold plainYear; lia). tauto.
  - apply Forall_forall. intros y Hy. now apply In_findXmasSunday in Hy.
  - rewrite Hplain. apply filter_sorted, yearsFrom_sorted.
  - rewrite Hplain. apply sunday_gaps.
  - intros Hlen Hnil. rewrite Hplain in Hnil.
    destruct (sunday_within startYear) as [d [Hd Hs]].
    rewrite (filter_yearsFrom_none _ _ _ Hnil) in Hs by lia. discriminate.
Qed.

Lemma displayed_years_witness :
  SoundComplete (findXmasSunday DateFacts.skipZone 2000 2100) 2000 2100 /\
  Forall (fun y => 2000 <= y <= 2100)
         (findXmasSunday DateFacts.skipZone 2000 2100) /\
  StronglySorted Z.lt (findXmasSunday DateFacts.skipZone 2000 2100) /\
  Forall (fun d => 5 <= d <= 11)
         (differences (findXmasSunday DateFacts.skipZone 2000 2100)) /\
  (2000 + 10 <= 2100 -> findXmasSunday DateFacts.skipZone 2000 2100 <> []).
Proof.
  apply (displayed_years DateFacts.skipZone (Some 2000) (Some 2100)).
  reflexivity.
Defined.

(* ================================================================== *)
(** ** More on the statistics *)
(* ================================================================== *)

Lemma find_sorted_least (c : Z) (years : list Z) :
  StronglySorted Z.lt years ->
  forall y,
    find (fun year => year >=? c) years = Some y <->
    In y years /\ c <= y /\ forall z, In z years -> c <= z -> y <= z.
Proof.
  induction 1 as [| a l Hs IH Ha]; intros y.
  - cbn. split; [discriminate | intros [[] _]].
  - rewrite Forall_forall in Ha. cbn [find].
    destruct (Z.geb_spec a c) as [Hge | Hlt].
    + split.
      * intros E. injection E as <-. split; [now left |].
        split; [lia |]. intros z [<- | Hz] _; [lia |].
        specialize (Ha z Hz). lia.
      * intros [Hin [Hc Hmin]]. f_equal.
        specialize (Hmin a (or_introl eq_refl) ltac:(lia)).
        destruct Hin as [E | Hin]; [exact E |].
        specialize (Ha y Hin). lia.
    + rewrite IH. split.
      * intros [Hin [Hc Hmin]]. split; [now right |]. split; [exact Hc |].
        intros z [<- | Hz] Hcz; [lia | now apply Hmin].
      * intros [[-> | Hin] [Hc Hmin]]; [lia |].
        split; [exact Hin |]. split; [exact Hc |].
        intros z Hz. apply Hmin. now right.
Qed.

(** X9: on years in ascending order, the next year shown is the least
    listed year from [currentYear] on, unless that year is 0; with no such
    year, or with 0 for it, the text "None in range" is shown. *)
Theorem nextSunday_least (this : ChristmasSundayFinder) (c : Z)
    (years : list Z) :
  currentYear this = Some c ->
  StronglySorted Z.lt years ->
  (forall y,
     nextSunday this years = Num y <->
     y <> 0 /\ In y years /\ c <= y /\
     forall z, In z years -> c <= z -> y <= z) /\
  ((forall y, nextSunday this years <> Num y) ->
   nextSunday this years = Str "None in range").
Proof.
  intros Hc Hs.
  assert (E : nextSunday this years
              = match find (fun year => year >=? c) years with
                | Some year =>
                    if year =? 0 then Str "None in range" else Num year
                | None => Str "None in range"
                end).
  { unfold nextSunday. f_equal. unfold geCurrent. now rewrite Hc. }
  rewrite E. pose proof (find_sorted_least c years Hs) as Hf.
  split.
  - intros y.
    destruct (find (fun year => year >=? c) years) as [y' |] eqn:Ef.
    + destruct (Z.eqb_spec y' 0) as [H0 | H0].
      * split; [discriminate |]. intros [Hy H]. apply Hf in H.
        injection H as ->. contradiction.
      * split.
        -- intros H. injection H as <-. split; [exact H0 |].
           now apply Hf.
        -- intros [_ H]. apply Hf in H. now injection H as ->.
    + split; [discriminate |]. intros [_ H]. apply Hf in H.
      discriminate.
  - intros Hn. destruct (find (fun year => year >=? c) years) as [y' |];
      [| reflexivity].
    destruct (y' =? 0); [reflexivity |]. now destruct (Hn y').
Qed.

Lemma nextSunday_least_witness :
  (forall y,
     nextSunday (mkFinder (Some 2012)) [2005; 2011; 2016; 2022] = Num y <->
     y <> 0 /\ In y [2005; 2011; 2016; 2022] /\ 2012 <= y /\
     forall z, In z [2005; 2011; 2016; 2022] -> 2012 <= z -> y <= z) /\
  ((forall y,
      nextSunday (mkFinder (Some 2012)) [2005; 2011; 2016; 2022] <> Num y) ->
   nextSunday (mkFinder (Some 2012)) [2005; 2011; 2016; 2022]
   = Str "None in range").
Proof.
  apply (nextSunday_least (mkFinder (Some 2012)) 2012
           [2005; 2011; 2016; 2022]).
  - reflexivity.
  - repeat constructor; lia.
Defined.

Section MoreStatistics.

Import JsNumber NumberFacts.
Variable NumberToString : Q -> string.

(** X10: the average gap of two years or more, each within 2^47 in
    magnitude, is made of the first year, the last year and the count
    alone: it is the text of [(last - first) / (count - 1)], whatever the
    years between. *)
Theorem average_gap_first_last
    (this : ChristmasSundayFinder) (first second : Z) (rest : list Z)
    (startYear endYear : Z) :
  Forall yearLike (first :: second :: rest) ->
  gap (calculateStatistics NumberToString this (first :: second :: rest)
         startYear endYear)
  = toFixed1 NumberToString
      (div (ofZ (last (second :: rest) first - first))
           (ofZ (Z.of_nat (List.length (second :: rest))))).
Proof.
  intros _. unfold calculateStatistics. cbn [gap].
  rewrite gapsOf_differences, fold_left_add, Z.add_0_l, differences_sum.
  rewrite differences_length. cbn [List.length Nat.sub Nat.ltb Nat.leb].
  reflexivity.
Qed.

(** X11: on a range of no years, [endYear = startYear - 1], the
    division by [totalYears = 0] shows: the frequency is "NaN" for an
    empty list and "Infinity" for any other. *)
Theorem frequency_zero_range
    (this : ChristmasSundayFinder) (years : list Z) (startYear : Z) :
  frequency (calculateStatistics NumberToString this years
               startYear (startYear - 1))
  = match years with
    | [] => "NaN"%string
    | _ :: _ => "Infinity"%string
    end.
Proof.
  unfold calculateStatistics. cbn [frequency].
  replace (startYear - 1 - startYear + 1) with 0 by lia.
  destruct years as [| y l]; [reflexivity |].
  cbn [List.length]. rewrite Nat2Z.inj_succ.
  unfold div, ofZ. change (Qeq_bool (inject_Z 0) 0) with true. cbv iota.
  assert (Hp : (0 < inject_Z (Z.succ (Z.of_nat (List.length l))))%Q)
    by (unfold Qlt; cbn; lia).
  destruct (Qeq_bool (inject_Z (Z.succ (Z.of_nat (List.length l)))) 0)
    eqn:E0.
  - apply Qeq_bool_iff in E0. rewrite E0 in Hp. discriminate Hp.
  - unfold Qlt_bool.
    assert (E1 : Qle_bool 0 (inject_Z (Z.succ (Z.of_nat (List.length l))))
                 = true) by (apply Qle_bool_iff; lra).
    rewrite E1. reflexivity.
Qed.

Lemma sumZ_bounds (lo hi : Z) (l : list Z) :
  Forall (fun d => lo <= d <= hi) l ->
  lo * Z.of_nat (List.length l) <= sumZ l <= hi * Z.of_nat (List.length l).
Proof.
  induction 1 as [| d l Hd _ IH]; [cbn; lia |].
  cbn [sumZ fold_right List.length]. fold (sumZ l). lia.
Qed.

Lemma nearestTenth_bounds (S k lo hi n : Z) :
  1 <= k -> lo * k <= S <= hi * k ->
  nearestTenth (inject_Z S / inject_Z k) n ->
  10 * lo <= n <= 10 * hi.
Proof.
  intros Hk [Hlo Hhi] Hn. unfold nearestTenth in Hn.
  apply Qabs_Qle_condition in Hn. destruct Hn as [H1 H2].
  assert (HK : (0 < inject_Z k)%Q) by (unfold Qlt; cbn; lia).
  set (x := (inject_Z S / inject_Z k)%Q) in *.
  assert (Ex : (x * inject_Z k == inject_Z S)%Q) by (unfold x; field; lra).
  assert (Hx1 : (inject_Z lo <= x)%Q).
  { apply Qmult_le_r with (z := inject_Z k); [exact HK |].
    rewrite Ex, <- inject_Z_mult, <- Zle_Qle. exact Hlo. }
  assert (Hx2 : (x <= inject_Z hi)%Q).
  { apply Qmult_le_r with (z := inject_Z k); [exact HK |].
    rewrite Ex, <- inject_Z_mult, <- Zle_Qle. exact Hhi. }
  change (inject_Z 10) with 10%Q in *.
  assert (A : (inject_Z (10 * lo - 1) < inject_Z n)%Q).
  { unfold Z.sub. rewrite inject_Z_plus, inject_Z_mult.
    change (inject_Z 10) with 10%Q. change (inject_Z (- (1))) with (-1)%Q.
    assert (E : (inject_Z n == inject_Z n / 10 * 10)%Q) by (field; lra).
    lra. }
  assert (B : (inject_Z n < inject_Z (10 * hi + 1))%Q).
  { rewrite inject_Z_plus, inject_Z_mult.
    change (inject_Z 10) with 10%Q. change (inject_Z 1) with 1%Q.
    assert (E : (inject_Z n == inject_Z n / 10 * 10)%Q) by (field; lra).
    lra. }
  rewrite <- Zlt_Qlt in A, B. lia.
Qed.

(** X12: for the years found in a range clear of the years 0..99, two
    of them or more, the average gap shown lies between "5.0" and "11.0":
    it is the text of [n] tenths with [50 <= n <= 110]. *)
Theorem average_gap_of_search
    (tz : Date.TimeZone) (this : ChristmasSundayFinder)
    (startYear endYear : Z) :
  endYear < 0 \/ 99 < startYear ->
  -271821 <= startYear -> endYear <= 275759 ->
  (2 <= List.length (findXmasSunday tz startYear endYear))%nat ->
  exists n : Z,
    gap (calculateStatistics NumberToString this
           (findXmasSunday tz startYear endYear) startYear endYear)
    = fixed1 false n /\
    50 <= n <= 110.
Proof.
  intros Hfar Hlo Hhi Hlen.
  set (years := findXmasSunday tz startYear endYear) in *.
  assert (Hg : Forall (fun d => 5 <= d <= 11) (differences years)).
  { unfold years. rewrite findXmasSunday_plain by assumption.
    apply sunday_gaps. }
  pose proof (sumZ_bounds 5 11 _ Hg) as Hsum.
  pose proof (differences_length years) as Hl.
  set (k := Z.of_nat (List.length (differences years))) in *.
  assert (Hk : 1 <= k) by (unfold k; lia).
  assert (Hyl : Forall yearLike years).
  { apply Forall_forall. intros y Hy. apply In_findXmasSunday in Hy.
    unfold yearLike. change (2 ^ 47) with 140737488355328. lia. }
  unfold calculateStatistics. cbn [gap].
  rewrite gapsOf_differences, fold_left_add, Z.add_0_l.
  destruct (Nat.ltb_spec 0 (List.length (differences years))); [| lia].
  destruct (toFixed1_quotient NumberToString
              (sumZ (differences years)) k
              (differences_sum_bound years Hyl) Hk)
    as [negative [n [E [Hn0 Hn]]]].
  fold k. rewrite E.
  pose proof (nearestTenth_bounds _ _ 5 11 _ Hk Hsum Hn) as Hb.
  destruct negative; [lia |].
  exists n. split; [reflexivity | lia].
Qed.

End MoreStatistics.

Lemma average_gap_first_last_witness :
  Forall yearLike [2005; 2011; 2016; 2022] /\
  gap (calculateStatistics blankToString (mkFinder (Some 2026))
         [2005; 2011; 2016; 2022] 2000 2025)
  = JsNumber.toFixed1 blankToString
      (JsNumber.div
         (JsNumber.ofZ (last [2011; 2016; 2022] 2005 - 2005))
         (JsNumber.ofZ (Z.of_nat (List.length [2011; 2016; 2022])))).
Proof.
  assert (H : Forall yearLike [2005; 2011; 2016; 2022])
    by (repeat constructor; unfold yearLike; cbn; lia).
  split; [exact H |].
  apply (average_gap_first_last blankToString (mkFinder (Some 2026))
           2005 2011 [2016; 2022] 2000 2025 H).
Defined.

Lemma average_gap_of_search_witness :
  (2025 < 0 \/ 99 < 2000) /\ -271821 <= 2000 /\ 2025 <= 275759 /\
  (2 <= List.length (findXmasSunday DateFacts.estZone 2000 2025))%nat /\
  exists n : Z,
    gap (calculateStatistics blankToString (mkFinder (Some 2026))
           (findXmasSunday DateFacts.estZone 2000 2025) 2000 2025)
    = JsNumber.fixed1 false n /\
    50 <= n <= 110.
Proof.
  split; [lia | split; [lia | split; [lia |]]].
  assert (H : (2 <= List.length (findXmasSunday DateFacts.estZone 2000 2025))%nat)
    by (vm_compute; lia).
  split; [exact H |].
  apply (average_gap_of_search blankToString DateFacts.estZone
           (mkFinder (Some 2026)) 2000 2025); [lia | lia | lia | exact H].
Defined.

(* ================================================================== *)
(** ** The title's click counter *)
(* ================================================================== *)

(** X13: the greeting comes on every fifth click: after [n] clicks from
    the start the counter is [n mod 5] and [n / 5] alerts were raised. *)
Theorem titleClicks_fifth (n : nat) :
  titleClicks n 0 = (Z.of_nat n mod 5, Z.to_nat (Z.of_nat n / 5)).
Proof.
  assert (H : forall n c, 0 <= c < 5 ->
            titleClicks n c
            = ((c + Z.of_nat n) mod 5, Z.to_nat ((c + Z.of_nat n) / 5))).
  { clear n. induction n as [| n IH]; intros c Hc.
    - cbn [titleClicks]. rewrite Z.add_0_r.
      rewrite Z.mod_small, Z.div_small by lia. reflexivity.
    - cbn [titleClicks]. unfold titleClick.
      destruct (Z.eqb_spec (c + 1) 5) as [E | E].
      + rewrite IH by lia. rewrite Z.add_0_l. f_equal.
        * replace (c + Z.of_nat (S n)) with (Z.of_nat n + 1 * 5) by lia.
          now rewrite Z.mod_add by lia.
        * replace (c + Z.of_nat (S n)) with (Z.of_nat n + 1 * 5) by lia.
          rewrite Z.div_add by lia.
          assert (0 <= Z.of_nat n / 5) by (apply Z.div_pos; lia).
          revert H. generalize (Z.of_nat n / 5). intros q H. lia.
      + rewrite IH by lia.
        now replace (c + Z.of_nat (S n)) with (c + 1 + Z.of_nat n) by lia. }
  apply (H n 0). lia.
Qed.


(* ================================================================== *)
(** ** Facts about parseInt *)
(* ================================================================== *)

Module ParseIntFacts.

Import ParseInt.

Lemma radixDigits_stops (rest : string) :
  stops rest = true -> radixDigits 10 rest = [].
Proof.
  destruct rest as [| c rest]; [reflexivity |]. cbn [stops radixDigits].
  now destruct (digitValue c).
Qed.

Lemma radixDigits_uint (d : Decimal.uint) (rest : string) :
  stops rest = true ->
  radixDigits 10 (NilEmpty.string_of_uint d ++ rest) = uintDigits d.
Proof.
  intros Hr. induction d; cbn [NilEmpty.string_of_uint append uintDigits];
    [now apply radixDigits_stops | ..];
    (cbn [radixDigits]; cbv [digitValue]; cbn; now rewrite IHd).
Qed.

Lemma mathInt_acc (d : Decimal.uint) :
  forall acc : positive,
    fold_left (fun acc d => acc * 10 + d) (uintDigits d) (Z.pos acc)
    = Z.pos (Pos.of_uint_acc d acc).
Proof.
  induction d; intros acc; cbn [uintDigits fold_left Pos.of_uint_acc];
    [reflexivity | ..];
    match goal with
    | |- fold_left _ _ ?a = Z.pos (Pos.of_uint_acc _ ?b) =>
        replace a with (Z.pos b) by lia
    end; apply IHd.
Qed.

Lemma mathInt_uint (d : Decimal.uint) :
  mathInt 10 (uintDigits d) = Z.of_N (N.of_uint d).
Proof.
  unfold mathInt, N.of_uint.
  induction d; cbn [uintDigits fold_left Pos.of_uint Z.of_N];
    [reflexivity | exact IHd | ..];
    match goal with
    | |- fold_left _ _ ?a = _ => change a with (Z.pos (Pos.of_succ_nat (Z.to_nat (a - 1))))
    end; cbn [Z.to_nat Z.sub Z.add Z.opp Z.pos_sub Pos.to_nat Pos.iter_op
              Init.Nat.add Pos.of_succ_nat Pos.succ Z.mul Pos.pred_double];
    apply mathInt_acc.
Qed.



Lemma ofInteger_exact (n : Z) :
  Z.abs n <= 2 ^ 53 -> JsNumber.ofInteger n = n.
Proof.
  intros H. unfold JsNumber.ofInteger.
  rewrite (Qfloor_comp _ _ (NumberFacts.binary64_integer n H)).
  apply Qfloor_Z.
Qed.

Lemma trimStart_blank (ws s : string) :
  blank ws = true -> trimStart (ws ++ s) = trimStart s.
Proof.
  induction ws as [| c ws IH]; [reflexivity |]. cbn [blank append trimStart].
  intros H. apply andb_prop in H. destruct H as [Hc Hws].
  rewrite Hc. now apply IH.
Qed.

(** A numeral, whatever stands before and after it, is read as its
    number. *)
Lemma parseInt_uint (d : Decimal.uint) (ws rest : string) :
  d <> Decimal.Nil -> blank ws = true -> stops rest = true ->
  parseInt (ws ++ NilEmpty.string_of_uint d ++ rest)
  = Some (JsNumber.ofInteger (Z.of_N (N.of_uint d))).
Proof.
  intros Hd Hws Hr. unfold parseInt. rewrite trimStart_blank by exact Hws.
  pose proof (radixDigits_uint d rest Hr) as Hdigits.
  pose proof (mathInt_uint d) as Hvalue.
  assert (Hne : uintDigits d <> []) by (destruct d; [contradiction | discriminate ..]).
  destruct d as [| d | d | d | d | d | d | d | d | d | d];
    [contradiction | | ..];
    cbn [NilEmpty.string_of_uint append] in *.
  2-10: (cbn [trimStart];
         match goal with
         | |- context [isWhiteSpace ?c] => change (isWhiteSpace c) with false
         end;
         cbv beta iota zeta; rewrite Hdigits;
         destruct (uintDigits _); [contradiction |];
         rewrite Z.mul_1_l, Hvalue; reflexivity).
  cbn [trimStart]. change (isWhiteSpace "0") with false.
  cbv beta iota zeta.
  set (tail := (NilEmpty.string_of_uint d ++ rest)%string) in *.
  assert (Hx : forall r, tail <> String "x" r).
  { intros r E. unfold tail in E.
    destruct d; cbn [NilEmpty.string_of_uint append] in E;
      try discriminate E.
    subst rest. discriminate Hr. }
  assert (HX : forall r, tail <> String "X" r).
  { intros r E. unfold tail in E.
    destruct d; cbn [NilEmpty.string_of_uint append] in E;
      try discriminate E.
    subst rest. discriminate Hr. }
  match goal with
  | |- context [radixDigits ?R ?S] =>
      assert (E1 : R = 10);
      [| assert (E2 : S = String "0" tail); [| rewrite E1, E2, Hdigits]]
  end.
  - destruct tail as [| c r]; [reflexivity |].
    destruct (Ascii.eqb_spec c "x") as [-> | Hcx]; [now destruct (Hx r) |].
    destruct (Ascii.eqb_spec c "X") as [-> | HcX]; [now destruct (HX r) |].
    destruct c as [[] [] [] [] [] [] [] []]; try reflexivity; contradiction.
  - destruct tail as [| c r]; [reflexivity |].
    destruct (Ascii.eqb_spec c "x") as [-> | Hcx]; [now destruct (Hx r) |].
    destruct (Ascii.eqb_spec c "X") as [-> | HcX]; [now destruct (HX r) |].
    destruct c as [[] [] [] [] [] [] [] []]; try reflexivity; contradiction.
  - destruct (uintDigits (Decimal.D0 d)); [contradiction |].
    rewrite Z.mul_1_l, Hvalue. reflexivity.
Qed.

Lemma parseInt_digits (n : Z) (ws rest : string) :
  0 <= n <= 2 ^ 53 -> blank ws = true -> stops rest = true ->
  parseInt (ws ++ JsNumber.digits n ++ rest) = Some n.
Proof.
  intros Hn Hws Hr. unfold JsNumber.digits.
  pose proof (to_uint_nonnil (Z.to_N n)) as Hd.
  assert (E : NilZero.string_of_uint (N.to_uint (Z.to_N n))
              = NilEmpty.string_of_uint (N.to_uint (Z.to_N n))).
  { destruct (N.to_uint (Z.to_N n)); [contradiction | reflexivity ..]. }
  rewrite E, parseInt_uint by assumption.
  rewrite DecimalN.Unsigned.of_to, Z2N.id by lia.
  f_equal. apply ofInteger_exact. lia.
Qed.

End ParseIntFacts.

(* ================================================================== *)
(** ** The integers of the model and the numbers of the host *)
(* ================================================================== *)

(** The host adds and subtracts exactly and rounds the result to
    binary64: [JsNumber.ofInteger] of the exact result.  On a safe
    integer [year++] adds one, as the loop of [findXmasSunday] has it. *)
Lemma increment_exact (year : Z) :
  safeInteger year -> JsNumber.ofInteger (year + 1) = year + 1.
Proof.
  unfold safeInteger. intros H. apply ParseIntFacts.ofInteger_exact. lia.
Qed.

(** Past the safe integers the counter can stay where it is: at 2^53,
    and at -2^53 - 4. *)
Example increment_sticks :
  JsNumber.ofInteger (9007199254740992 + 1) = 9007199254740992 /\
  JsNumber.ofInteger (-9007199254740996 + 1) = -9007199254740996.
Proof. split; vm_compute; reflexivity. Qed.

(** The difference of two years within [yearLike] is exact, as [gapsOf]
    has it, and so is the sum of the gaps as it grows: after the gap to
    [next] it is [next - first]. *)
Lemma difference_exact (year next : Z) :
  yearLike year -> yearLike next ->
  JsNumber.ofInteger (next - year) = next - year.
Proof.
  unfold yearLike. change (2 ^ 47) with 140737488355328. intros Hy Hn.
  apply ParseIntFacts.ofInteger_exact.
  change (2 ^ 53) with 9007199254740992. lia.
Qed.

Lemma sum_exact (first year next : Z) :
  yearLike first -> yearLike year -> yearLike next ->
  JsNumber.ofInteger ((year - first) + (next - year)) = next - first.
Proof.
  intros Hf _ Hn. replace (year - first + (next - year)) with (next - first)
    by lia.
  now apply difference_exact.
Qed.


(* ================================================================== *)
(** ** Facts about the page *)
(* ================================================================== *)

Section PageFacts.

Variable tz : Date.TimeZone.
Variable NumberToString : Q -> string.
Variable random : nat -> Q.

Lemma insertTimer_last (t : timer) (queue : list timer) :
  Forall (fun u => fst u <= fst t) queue ->
  insertTimer t queue = queue ++ [t].
Proof.
  induction 1 as [| u q Hu _ IH]; [reflexivity |].
  cbn [insertTimer app]. destruct (Z.ltb_spec (fst t) (fst u)); [lia |].
  now rewrite IH.
Qed.

Lemma schedule_years (now : Z) (years : list Z) :
  forall (k : nat) (queue : list timer),
    Forall (fun u => fst u <= now + Z.of_nat k * 50) queue ->
    schedule now
      (map (fun iy => (Z.of_nat (fst iy) * 50, AddYearItem (snd iy)))
           (combine (seq k (List.length years)) years))
      queue
    = queue ++ yearTimers now k years.
Proof.
  induction years as [| year rest IH]; intros k queue Hq.
  - cbn. now rewrite app_nil_r.
  - cbn [List.length seq combine map schedule fold_left fst snd yearTimers].
    rewrite insertTimer_last by exact Hq.
    change (fold_left ?f ?l ?q) with (schedule now l q).
    rewrite IH.
    + now rewrite <- app_assoc.
    + apply Forall_app. split.
      * eapply Forall_impl; [| exact Hq]. cbn. intros u Hu. lia.
      * constructor; [cbn; lia | constructor].
Qed.

Lemma run_yearTimers (years : list Z) :
  forall (fuel : nat) (now : Z) (k : nat) (clock : Z) (p : page),
    (List.length years <= fuel)%nat ->
    runTimers tz NumberToString random fuel clock p (yearTimers now k years)
    = (withYearItems years p, []).
Proof.
  induction years as [| year rest IH]; intros fuel now k clock p Hf.
  - destruct p as [i [? ? ? ? ? ? ? ?] ? ? ? ?].
    unfold withYearItems, withResults. cbn. rewrite app_nil_r.
    now destruct fuel.
  - destruct fuel as [| fuel]; [cbn in Hf; lia |].
    cbn [yearTimers runTimers runTask schedule fold_left].
    rewrite IH by (cbn in Hf; lia).
    f_equal. destruct p as [i [? ? ? ? ? ? ? ?] ? ? ? ?].
    unfold withYearItems, withResults. cbn. now rewrite <- app_assoc.
Qed.

(** The callback of [findXmasSundays], run alone to its end. *)
Lemma run_ShowResults (fuel : nat) (now due : Z) (p : page)
    (startYear endYear : Z) :
  (List.length (findXmasSunday tz startYear endYear) < fuel)%nat ->
  exists p',
    runTimers tz NumberToString random fuel now p
      [(due, ShowResults startYear endYear)] = (p', []) /\
    results p'
    = searchPanel tz NumberToString (Z.max now due) startYear endYear /\
    alerts p' = alerts p /\
    listeners p' = S (listeners p) /\
    startYearValue (inputs p') = startYearValue (inputs p) /\
    endYearValue (inputs p') = endYearValue (inputs p).
Proof.
  intros Hf. destruct fuel as [| fuel]; [lia |].
  cbn [runTimers runTask]. unfold displayResults, newChristmasSundayFinder.
  cbv beta iota zeta.
  rewrite schedule_years by constructor. cbn [app].
  rewrite run_yearTimers by lia.
  eexists. split; [reflexivity |].
  unfold validateInputs.
  cbn [initializeSnow setupEventListeners inputs withResults].
  match goal with
  | |- context [if ?b then _ else _] => destruct b
  end; repeat split.
Qed.

End PageFacts.

Section PageTheorems.

Variable tz : Date.TimeZone.
Variable NumberToString : Q -> string.
Variable random : nat -> Q.

(** X14: [validateInputs] returns false, and marks both fields red,
    exactly when a search on the same fields would alert that the start
    year must not exceed the end year; otherwise both borders are green. *)
Theorem validateInputs_order (p : page) :
  (snd (validateInputs p) = false <->
   findXmasSundays tz
     (ParseInt.parseInt (startYearValue (inputs p)))
     (ParseInt.parseInt (endYearValue (inputs p))) = Alert msgOrder) /\
  fst (validateInputs p)
  = withInputs
      (if snd (validateInputs p)
       then withBorders "var(--primary-green)" "var(--primary-green)"
              (inputs p)
       else withBorders "red" "red" (inputs p))
      p.
Proof.
  unfold validateInputs, findXmasSundays.
  destruct (ParseInt.parseInt (startYearValue (inputs p))) as [s |];
    destruct (ParseInt.parseInt (endYearValue (inputs p))) as [e |];
    cbn [truthy greater andb fst snd];
    try (split; [split; discriminate | reflexivity]).
  - destruct s as [| s | s], e as [| e | e]; cbn [truthy andb orb Z.eqb];
      try (split; [split; discriminate | reflexivity]);
      unfold greater;
      destruct (_ >? _); cbn [fst snd];
      (split; [split; try reflexivity; try discriminate | reflexivity]);
      destruct (_ || _); discriminate.
  - destruct s; cbn [truthy andb fst snd];
      (split; [split; discriminate | reflexivity]).
Qed.

(** X15: numerals in the two fields, with blanks before them or other
    text behind, are read as their numbers: for years with
    [1900 <= start <= end <= 3000] the search shows the loading sign,
    raises no alert and sets one timer of 500 ms for that range. *)
Theorem findXmasSundaysPage_numerals (p : page) (startYear endYear : Z)
    (ws ws' rest rest' : string) :
  1900 <= startYear -> startYear <= endYear -> endYear <= 3000 ->
  blank ws = true -> stops rest = true ->
  blank ws' = true -> stops rest' = true ->
  startYearValue (inputs p) = (ws ++ JsNumber.digits startYear ++ rest)%string ->
  endYearValue (inputs p) = (ws' ++ JsNumber.digits endYear ++ rest')%string ->
  snd (findXmasSundaysPage tz p) = [(500, ShowResults startYear endYear)] /\
  loadingDisplay (results (fst (findXmasSundaysPage tz p))) = "block"%string /\
  alerts (fst (findXmasSundaysPage tz p)) = alerts p.
Proof.
  intros Hlo Hle Hhi Hws Hr Hws' Hr' Es Ee.
  unfold findXmasSundaysPage. rewrite Es, Ee.
  rewrite !ParseIntFacts.parseInt_digits
    by (try assumption; change (2 ^ 53) with 9007199254740992; lia).
  assert (E : findXmasSundays tz (Some startYear) (Some endYear)
              = DisplayResults (findXmasSunday tz startYear endYear)
                  startYear endYear)
    by (apply findXmasSundays_display; repeat split; lia).
  rewrite E. repeat split.
Qed.

(** X16: a search that passes the guards, left to its timers, ends with
    no timer waiting and with the panel of its range: the loading sign
    hidden, the results shown, the count in words, the years found in the
    grid in ascending order, each once, and the four statistics.  It
    raises no alert and leaves the values of the fields. *)
Theorem search_completes (fuel : nat) (now : Z) (p : page)
    (years : list Z) (startYear endYear : Z) :
  findXmasSundays tz
    (ParseInt.parseInt (startYearValue (inputs p)))
    (ParseInt.parseInt (endYearValue (inputs p)))
  = DisplayResults years startYear endYear ->
  (List.length years < fuel)%nat ->
  snd (search tz NumberToString random fuel now p) = [] /\
  results (fst (search tz NumberToString random fuel now p))
  = searchPanel tz NumberToString (now + 500) startYear endYear /\
  yearsGrid (results (fst (search tz NumberToString random fuel now p)))
  = years /\
  alerts (fst (search tz NumberToString random fuel now p)) = alerts p /\
  startYearValue (inputs (fst (search tz NumberToString random fuel now p)))
  = startYearValue (inputs p) /\
  endYearValue (inputs (fst (search tz NumberToString random fuel now p)))
  = endYearValue (inputs p).
Proof.
  intros H Hf. unfold search, findXmasSundaysPage. rewrite H.
  apply findXmasSundays_display in H.
  destruct H as [_ [_ [_ [_ [_ ->]]]]].
  cbn [schedule fold_left insertTimer fst snd].
  match goal with
  | |- context [runTimers _ _ _ fuel now ?q ?ts] =>
      set (run := runTimers tz NumberToString random fuel now q ts);
      destruct (run_ShowResults tz NumberToString random fuel now
                  (now + 500) q startYear endYear Hf)
        as [p' [E [Hr [Ha [_ [Hs He]]]]]]
  end.
  change (run = (p', [])) in E. rewrite E. cbn [fst snd].
  rewrite Z.max_r in Hr by lia.
  rewrite Hr, Ha, Hs, He. repeat split.
Qed.

(** X17: every call of [displayResults] makes a [ChristmasSundayFinder]
    of its own, so every search leaves the page with one more pair of
    listeners on each field and fifty more snowflakes, after 300 more
    calls of [Math.random]. *)
Theorem displayResults_piles_up (clock : Z) (p : page) (years : list Z)
    (startYear endYear : Z) :
  let p' := fst (displayResults tz NumberToString random clock p years
                   startYear endYear) in
  listeners p' = S (listeners p) /\
  List.length (snowContainer p') = (List.length (snowContainer p) + 50)%nat /\
  draws p' = (draws p + 300)%nat.
Proof.
  unfold displayResults, newChristmasSundayFinder, validateInputs.
  cbv zeta.
  match goal with
  | |- context [if ?b then _ else _] => destruct b
  end; cbn [fst listeners snowContainer draws initializeSnow
            setupEventListeners withResults withInputs];
    rewrite length_app, length_map, length_seq; repeat split.
Qed.

Lemma findXmasSundaysPage_keeps (p : page) :
  inputs (fst (findXmasSundaysPage tz p)) = inputs p /\
  listeners (fst (findXmasSundaysPage tz p)) = listeners p.
Proof.
  unfold findXmasSundaysPage.
  destruct (findXmasSundays tz _ _); split; reflexivity.
Qed.

Lemma callFindXmasSundays_outcome (n : nat) :
  forall p,
    match findXmasSundays tz
            (ParseInt.parseInt (startYearValue (inputs p)))
            (ParseInt.parseInt (endYearValue (inputs p))) with
    | Alert message =>
        snd (callFindXmasSundays tz n p) = [] /\
        alerts (fst (callFindXmasSundays tz n p))
        = alerts p ++ repeat message n
    | DisplayResults _ startYear endYear =>
        snd (callFindXmasSundays tz n p)
        = repeat (500, ShowResults startYear endYear) n /\
        alerts (fst (callFindXmasSundays tz n p)) = alerts p
    end.
Proof.
  induction n as [| n IH]; intros p.
  - cbn [callFindXmasSundays repeat fst snd]. rewrite app_nil_r.
    destruct (findXmasSundays tz _ _); split; reflexivity.
  - cbn [callFindXmasSundays repeat].
    destruct (findXmasSundaysPage tz p) as [p1 timers] eqn:E1.
    pose proof (findXmasSundaysPage_keeps p) as [Hi _].
    rewrite E1 in Hi. cbn [fst] in Hi.
    specialize (IH p1). rewrite Hi in IH.
    destruct (callFindXmasSundays tz n p1) as [p2 timers'] eqn:E2.
    cbn [fst snd] in *.
    unfold findXmasSundaysPage in E1.
    destruct (findXmasSundays tz _ _) as [message | ys s e].
    + injection E1 as <- <-. destruct IH as [-> ->]. split; [reflexivity |].
      unfold alert. cbn [alerts]. now rewrite <- app_assoc.
    + injection E1 as <- <-. destruct IH as [-> ->]. split; reflexivity.
Qed.

(** X18: Enter in a field runs [findXmasSundays] once for every finder
    made so far: on fields that pass the guards it sets that many timers
    for the same search, on others it raises that many alerts.  Any other
    key does nothing. *)
Theorem keypress_Enter (key : string) (p : page) :
  if String.eqb key "Enter" then
    match findXmasSundays tz
            (ParseInt.parseInt (startYearValue (inputs p)))
            (ParseInt.parseInt (endYearValue (inputs p))) with
    | Alert message =>
        snd (keypress tz key p) = [] /\
        alerts (fst (keypress tz key p))
        = alerts p ++ repeat message (listeners p)
    | DisplayResults _ startYear endYear =>
        snd (keypress tz key p)
        = repeat (500, ShowResults startYear endYear) (listeners p) /\
        alerts (fst (keypress tz key p)) = alerts p
    end
  else keypress tz key p = (p, []).
Proof.
  unfold keypress. destruct (String.eqb key "Enter"); [| reflexivity].
  apply callFindXmasSundays_outcome.
Qed.

(** X19: after [clearResults] the results are hidden and both fields
    are empty, so that a search alerts that both years are missing, and
    sets no timer. *)
Theorem clearResults_then_search (p : page) :
  resultsSectionDisplay (results (clearResults p)) = "none"%string /\
  startYearValue (inputs (clearResults p)) = EmptyString /\
  endYearValue (inputs (clearResults p)) = EmptyString /\
  findXmasSundaysPage tz (clearResults p)
  = (alert msgBoth (clearResults p), []).
Proof. repeat split. Qed.

(** X20: an "input" event leaves the page as one call of
    [validateInputs] does, however many listeners answer it. *)
Theorem inputEvent_once (p : page) :
  (0 < listeners p)%nat ->
  inputEvent p = fst (validateInputs p).
Proof.
  unfold inputEvent.
  assert (Hidem : forall q,
             fst (validateInputs (fst (validateInputs q)))
             = fst (validateInputs q)).
  { intros [[sv ev sb eb sp ep] r sc l d a]. unfold validateInputs.
    cbn [inputs startYearValue endYearValue].
    destruct (truthy (ParseInt.parseInt sv) && truthy (ParseInt.parseInt ev)
              && greater (ParseInt.parseInt sv) (ParseInt.parseInt ev))
      eqn:E;
      cbn [fst inputs withInputs withBorders startYearValue endYearValue];
      rewrite E; reflexivity. }
  generalize (listeners p). intros n Hn.
  destruct n as [| n]; [lia |]. clear Hn.
  induction n as [| n IH]; [reflexivity |].
  change (Nat.iter (S (S n)) ?f p) with (f (Nat.iter (S n) f p)).
  cbv beta. rewrite IH. apply Hidem.
Qed.

End PageTheorems.

Section Snow.

Variable random : nat -> Q.

(** X21: with [Math.random] in its range, from 0 to the last binary64
    number below 1, the sign of a snowflake is one of the three of the
    list, never [undefined], and its [left] is a number from 0 up to, not
    reaching, 100. *)
Theorem makeSnowflake_sign (k : nat) :
  (forall i, (0 <= random i /\ random i <= 1 - JsNumber.roundoff)%Q) ->
  In (innerHTML (makeSnowflake random k)) snowflakes /\
  exists q, left (makeSnowflake random k) = JsNumber.Finite q /\
            (0 <= q /\ q < 100)%Q.
Proof.
  intros Hr. unfold makeSnowflake. cbn [innerHTML left].
  split.
  - destruct (Hr (k + 0)%nat) as [H0 H1].
    unfold JsNumber.mul, JsNumber.ofZ, JsNumber.floor.
    change (Z.of_nat (List.length snowflakes)) with 3.
    change (inject_Z 3) with 3%Q.
    set (q := JsNumber.binary64 (random (k + 0)%nat * 3)).
    assert (Hx : (0 <= random (k + 0)%nat * 3)%Q) by lra.
    destruct (NumberFacts.binary64_nonneg _ Hx) as [Ha Hb]. fold q in Ha, Hb.
    unfold JsNumber.roundoff in *.
    change (1 # 2 ^ 53)%Q with (1 # 9007199254740992)%Q in *.
    assert (Hq0 : (0 <= q)%Q) by lra.
    assert (Hq3 : (q < 3)%Q).
    { eapply Qle_lt_trans; [exact Hb |].
      apply Qle_lt_trans
        with (y := (((1 - (1 # 9007199254740992)) * 3)
                    * (1 + (1 # 9007199254740992)))%Q).
      - apply Qmult_le_compat_r; lra.
      - reflexivity. }
    assert (Hf0 : 0 <= Qfloor q).
    { change 0 with (Qfloor 0). now apply Qfloor_resp_le. }
    assert (Hf3 : Qfloor q < 3).
    { pose proof (Qfloor_le q) as Hl.
      assert (Hlt : (inject_Z (Qfloor q) < inject_Z 3)%Q).
      { change (inject_Z 3) with 3%Q. lra. }
      now rewrite <- Zlt_Qlt in Hlt. }
    unfold snowflakeAt. rewrite Qfloor_Z.
    assert (E : Qeq_bool (inject_Z (Qfloor q)) (inject_Z (Qfloor q)) = true)
      by (apply Qeq_bool_iff; reflexivity).
    rewrite E. destruct (Z.leb_spec 0 (Qfloor q)); [| lia]. cbn [andb].
    assert (Hc : Qfloor q = 0 \/ Qfloor q = 1 \/ Qfloor q = 2) by lia.
    destruct Hc as [-> | [-> | ->]]; cbn; tauto.
  - destruct (Hr (k + 1)%nat) as [H0 H1].
    unfold JsNumber.mul, JsNumber.ofZ.
    change (inject_Z 100) with 100%Q.
    set (q := JsNumber.binary64 (random (k + 1)%nat * 100)).
    exists q. split; [reflexivity |].
    assert (Hx : (0 <= random (k + 1)%nat * 100)%Q) by lra.
    destruct (NumberFacts.binary64_nonneg _ Hx) as [Ha Hb]. fold q in Ha, Hb.
    unfold JsNumber.roundoff in *.
    change (1 # 2 ^ 53)%Q with (1 # 9007199254740992)%Q in *.
    split; [lra |].
    eapply Qle_lt_trans; [exact Hb |].
    apply Qle_lt_trans
      with (y := (((1 - (1 # 9007199254740992)) * 100)
                  * (1 + (1 # 9007199254740992)))%Q).
    + apply Qmult_le_compat_r; lra.
    + reflexivity.
Qed.

End Snow.

Section MorePageTheorems.

Variable tz : Date.TimeZone.
Variable NumberToString : Q -> string.
Variable formatLongDate : Date.t -> string.
Variable random : nat -> Q.

Lemma weekdayLong_Sunday (d : Date.t) :
  weekdayLong tz d = "Sunday"%string <-> isZero (Date.getDay tz d) = true.
Proof.
  unfold weekdayLong, isZero.
  destruct (Date.getDay tz d) as [[| n | n] |];
    try (split; [reflexivity | reflexivity]);
    try (split; discriminate).
  repeat match goal with
         | |- context [match ?p with _ => _ end] => is_var p; destruct p
         end; split; discriminate.
Qed.

(** X22: the year items agree with their details: for a year of a
    searched range of safe integers, [showYearDetails] names the day
    "Sunday" exactly when [findXmasSunday] lists the year, and for a
    listed year its alert reads "December 25th, <year> falls on Sunday",
    a blank line, and the date. *)
Theorem showYearDetails_agrees (p : page) (startYear endYear year : Z) :
  safeInteger startYear -> safeInteger endYear ->
  startYear <= year <= endYear ->
  (In year (findXmasSunday tz startYear endYear) <->
   weekdayLong tz (Date.new3 tz year 11 25) = "Sunday"%string) /\
  (In year (findXmasSunday tz startYear endYear) ->
   alerts (showYearDetails tz NumberToString formatLongDate year p)
   = alerts p ++
     [("December 25th, " ++ numberText NumberToString year
       ++ " falls on Sunday" ++ newline ++ newline ++ "Date: "
       ++ formatLongDate (Date.new3 tz year 11 25))%string]).
Proof.
  intros _ _ Hy.
  assert (Hiff : In year (findXmasSunday tz startYear endYear) <->
                 weekdayLong tz (Date.new3 tz year 11 25) = "Sunday"%string).
  { rewrite weekdayLong_Sunday, isZero_getDay_xmas, In_findXmasSunday.
    tauto. }
  split; [exact Hiff |].
  intros Hin. apply Hiff in Hin.
  unfold showYearDetails, alert. cbn [alerts]. now rewrite Hin.
Qed.

(** X23: the example button always leads to the same result: whatever
    the page held, the fields read 2000 and 2100, no alert is raised, and
    once the timers have run the grid holds the fourteen Sunday
    Christmases of 2000..2100, with the count in words, the frequency
    "13.9%" and the average gap "6.9". *)
Theorem loadExample_shows (fuel : nat) (now : Z) (p : page) :
  (14 < fuel)%nat ->
  let final :=
    runTimers tz NumberToString random fuel now
      (fst (loadExample tz p)) (schedule now (snd (loadExample tz p)) []) in
  snd final = [] /\
  yearsGrid (results (fst final))
  = [2005; 2011; 2016; 2022; 2033; 2039; 2044; 2050; 2061; 2067; 2072;
     2078; 2089; 2095] /\
  resultsCount (results (fst final))
  = "Found 14 years where Christmas falls on Sunday"%string /\
  frequencyText (results (fst final)) = "13.9%"%string /\
  gapText (results (fst final)) = "6.9"%string /\
  startYearValue (inputs (fst final)) = "2000"%string /\
  endYearValue (inputs (fst final)) = "2100"%string /\
  alerts (fst final) = alerts p.
Proof.
  intros Hf.
  assert (Hy : findXmasSunday tz 2000 2100
               = [2005; 2011; 2016; 2022; 2033; 2039; 2044; 2050; 2061;
                  2067; 2072; 2078; 2089; 2095])
    by (rewrite findXmasSunday_filter; vm_compute; reflexivity).
  assert (Hlen : (List.length (findXmasSunday tz 2000 2100) < fuel)%nat)
    by (rewrite Hy; cbn [List.length]; lia).
  change (loadExample tz p)
    with (withResults
            (mkPanel "block" "none" (resultsCount (results p))
               (yearsGrid (results p)) (totalYears (results p))
               (frequencyText (results p)) (nextSundayText (results p))
               (gapText (results p)))
            (typed "2000" "2100" p),
          [(500, ShowResults 2000 2100)]).
  cbn [fst snd schedule fold_left insertTimer].
  match goal with
  | |- context [runTimers _ _ _ fuel now ?q ?ts] =>
      set (run := runTimers tz NumberToString random fuel now q ts);
      destruct (run_ShowResults tz NumberToString random fuel now
                  (now + 500) q 2000 2100 Hlen)
        as [p' [E [Hr [Ha [_ [Hs He]]]]]]
  end.
  change (run = (p', [])) in E. cbv zeta. rewrite E. cbn [fst snd].
  rewrite Hr, Ha, Hs, He. unfold searchPanel. rewrite Hy.
  cbn [yearsGrid resultsCount frequencyText gapText].
  repeat split; vm_compute; reflexivity.
Qed.

End MorePageTheorems.

Lemma findXmasSundaysPage_numerals_witness :
  1900 <= 2000 /\ 2000 <= 2025 /\ 2025 <= 3000 /\
  blank " " = true /\ stops ".5" = true /\
  blank EmptyString = true /\ stops EmptyString = true /\
  startYearValue (inputs (typed " 2000.5" "2025" emptyPage))
  = (" " ++ JsNumber.digits 2000 ++ ".5")%string /\
  endYearValue (inputs (typed " 2000.5" "2025" emptyPage))
  = (EmptyString ++ JsNumber.digits 2025 ++ EmptyString)%string /\
  snd (findXmasSundaysPage DateFacts.estZone (typed " 2000.5" "2025" emptyPage))
  = [(500, ShowResults 2000 2025)] /\
  loadingDisplay
    (results (fst (findXmasSundaysPage DateFacts.estZone
                     (typed " 2000.5" "2025" emptyPage))))
  = "block"%string /\
  alerts (fst (findXmasSundaysPage DateFacts.estZone
                 (typed " 2000.5" "2025" emptyPage)))
  = alerts (typed " 2000.5" "2025" emptyPage).
Proof.
  split; [lia | split; [lia | split; [lia |]]].
  do 6 (split; [reflexivity |]).
  apply (findXmasSundaysPage_numerals DateFacts.estZone
           (typed " 2000.5" "2025" emptyPage) 2000 2025 " " EmptyString ".5"
           EmptyString);
    try lia; reflexivity.
Defined.

Lemma search_completes_witness :
  findXmasSundays DateFacts.estZone
    (ParseInt.parseInt
       (startYearValue (inputs (typed "2000" "2025" emptyPage))))
    (ParseInt.parseInt
       (endYearValue (inputs (typed "2000" "2025" emptyPage))))
  = DisplayResults [2005; 2011; 2016; 2022] 2000 2025 /\
  (List.length [2005; 2011; 2016; 2022] < 5)%nat /\
  snd (search DateFacts.estZone blankToString halves 5 1600000000000
         (typed "2000" "2025" emptyPage)) = [] /\
  results (fst (search DateFacts.estZone blankToString halves 5 1600000000000
                  (typed "2000" "2025" emptyPage)))
  = searchPanel DateFacts.estZone blankToString (1600000000000 + 500)
      2000 2025 /\
  yearsGrid
    (results (fst (search DateFacts.estZone blankToString halves 5
                     1600000000000 (typed "2000" "2025" emptyPage))))
  = [2005; 2011; 2016; 2022] /\
  alerts (fst (search DateFacts.estZone blankToString halves 5 1600000000000
                 (typed "2000" "2025" emptyPage)))
  = alerts (typed "2000" "2025" emptyPage) /\
  startYearValue
    (inputs (fst (search DateFacts.estZone blankToString halves 5
                    1600000000000 (typed "2000" "2025" emptyPage))))
  = startYearValue (inputs (typed "2000" "2025" emptyPage)) /\
  endYearValue
    (inputs (fst (search DateFacts.estZone blankToString halves 5
                    1600000000000 (typed "2000" "2025" emptyPage))))
  = endYearValue (inputs (typed "2000" "2025" emptyPage)).
Proof.
  split; [vm_compute; reflexivity |].
  split; [cbn; lia |].
  apply (search_completes DateFacts.estZone blankToString halves 5
           1600000000000 (typed "2000" "2025" emptyPage)
           [2005; 2011; 2016; 2022] 2000 2025).
  - vm_compute. reflexivity.
  - cbn. lia.
Defined.

Lemma inputEvent_once_witness :
  let p :=
    setupEventListeners
      (setupEventListeners
         (setupEventListeners (typed "2025" "2000" emptyPage))) in
  (0 < listeners p)%nat /\
  inputEvent p = fst (validateInputs p).
Proof.
  cbv zeta. split; [cbn; lia |].
  apply (inputEvent_once
           (setupEventListeners
              (setupEventListeners
                 (setupEventListeners (typed "2025" "2000" emptyPage))))).
  cbn. lia.
Defined.

Lemma makeSnowflake_sign_witness :
  (forall i : nat, (0 <= halves i /\ halves i <= 1 - JsNumber.roundoff)%Q) /\
  In (innerHTML (makeSnowflake halves 0)) snowflakes /\
  exists q, left (makeSnowflake halves 0) = JsNumber.Finite q /\
            (0 <= q /\ q < 100)%Q.
Proof.
  assert (H : forall i : nat,
             (0 <= halves i /\ halves i <= 1 - JsNumber.roundoff)%Q).
  { intros i. unfold halves. split; [discriminate | vm_compute; discriminate]. }
  split; [exact H |].
  apply (makeSnowflake_sign halves 0 H).
Defined.

Lemma showYearDetails_agrees_witness :
  safeInteger 2000 /\ safeInteger 2025 /\
  2000 <= 2022 <= 2025 /\
  (In 2022 (findXmasSunday DateFacts.estZone 2000 2025) <->
   weekdayLong DateFacts.estZone (Date.new3 DateFacts.estZone 2022 11 25)
   = "Sunday"%string) /\
  (In 2022 (findXmasSunday DateFacts.estZone 2000 2025) ->
   alerts (showYearDetails DateFacts.estZone blankToString
             (fun _ => "December 25, 2022"%string) 2022 emptyPage)
   = alerts emptyPage ++
     [("December 25th, " ++ numberText blankToString 2022
       ++ " falls on Sunday" ++ newline ++ newline ++ "Date: "
       ++ (fun _ : Date.t => "December 25, 2022"%string)
            (Date.new3 DateFacts.estZone 2022 11 25))%string]).
Proof.
  split; [reflexivity | split; [reflexivity |]].
  split; [lia |].
  apply (showYearDetails_agrees DateFacts.estZone blankToString
           (fun _ => "December 25, 2022"%string) emptyPage 2000 2025 2022);
    try lia; reflexivity.
Defined.

Lemma loadExample_shows_witness :
  (14 < 15)%nat /\
  let final :=
    runTimers DateFacts.estZone blankToString halves 15 1600000000000
      (fst (loadExample DateFacts.estZone emptyPage))
      (schedule 1600000000000 (snd (loadExample DateFacts.estZone emptyPage))
         []) in
  snd final = [] /\
  yearsGrid (results (fst final))
  = [2005; 2011; 2016; 2022; 2033; 2039; 2044; 2050; 2061; 2067; 2072;
     2078; 2089; 2095] /\
  resultsCount (results (fst final))
  = "Found 14 years where Christmas falls on Sunday"%string /\
  frequencyText (results (fst final)) = "13.9%"%string /\
  gapText (results (fst final)) = "6.9"%string /\
  startYearValue (inputs (fst final)) = "2000"%string /\
  endYearValue (inputs (fst final)) = "2100"%string /\
  alerts (fst final) = alerts emptyPage.
Proof.
  split; [lia |].
  apply (loadExample_shows DateFacts.estZone blankToString halves 15
           1600000000000 emptyPage).
  lia.
Defined.

Section Repeats.

Variable tz : Date.TimeZone.
Variable NumberToString : Q -> string.
Variable random : nat -> Q.














End Repeats.


Section Loaded.

Variable tz : Date.TimeZone.
Variable random : nat -> Q.

(** X25: the placeholders "2000" and "2100" that the page gets when it
    is loaded are no values: while a field is still empty, a search
    alerts that both years are missing, and sets no timer. *)
Theorem domContentLoaded_placeholders (clock : Z) (p : page) :
  startYearValue (inputs p) = EmptyString \/
  endYearValue (inputs p) = EmptyString ->
  let p' := domContentLoaded tz random clock p in
  startYearPlaceholder (inputs p') = "2000"%string /\
  endYearPlaceholder (inputs p') = "2100"%string /\
  startYearValue (inputs p') = startYearValue (inputs p) /\
  endYearValue (inputs p') = endYearValue (inputs p) /\
  findXmasSundaysPage tz p' = (alert msgBoth p', []).
Proof.
  intros H p'.
  assert (Hs : startYearValue (inputs p') = startYearValue (inputs p)).
  { unfold p', domContentLoaded, newChristmasSundayFinder, validateInputs.
    cbn [fst]. now destruct (_ && _). }
  assert (He : endYearValue (inputs p') = endYearValue (inputs p)).
  { unfold p', domContentLoaded, newChristmasSundayFinder, validateInputs.
    cbn [fst]. now destruct (_ && _). }
  repeat split; try assumption.
  unfold findXmasSundaysPage. rewrite Hs, He.
  destruct H as [-> | ->].
  - reflexivity.
  - change (ParseInt.parseInt EmptyString) with (@None Z).
    unfold findXmasSundays.
    now destruct (ParseInt.parseInt (startYearValue (inputs p))).
Qed.

End Loaded.

Lemma domContentLoaded_placeholders_witness :
  (startYearValue (inputs emptyPage) = EmptyString \/
   endYearValue (inputs emptyPage) = EmptyString) /\
  let p' := domContentLoaded DateFacts.estZone halves 1600000000000 emptyPage
  in
  startYearPlaceholder (inputs p') = "2000"%string /\
  endYearPlaceholder (inputs p') = "2100"%string /\
  startYearValue (inputs p') = startYearValue (inputs emptyPage) /\
  endYearValue (inputs p') = endYearValue (inputs emptyPage) /\
  findXmasSundaysPage DateFacts.estZone p' = (alert msgBoth p', []).
Proof.
  split; [left; reflexivity |].
  apply (domContentLoaded_placeholders DateFacts.estZone halves
           1600000000000 emptyPage).
  left. reflexivity.
Defined.
